(** * openssl-tracer: the BPF probe functions of [openssl_tracer_bpf_funcs.c]

    A shallow embedding of the six uprobe handlers attached to
    [SSL_write], [SSL_read] and [SSL_read_ex], of the two event
    materializers [process_SSL_data] and [process_SSL_ex_data], and of
    the BPF maps they share.  C integers are [Z] with their wrap-around
    written out, user pointers are 64-bit addresses in [Z], the three
    [BPF_HASH] tables are [gmap]s keyed by the thread identity, the two
    [BPF_PERCPU_ARRAY]s are one slot per processor, and [tls_events] is
    the sequence of records handed to [perf_submit]. *)

From Stdlib Require Import ZArith Lia List.
From Stdlib Require Import Init.Byte.
From stdpp Require Import base option list gmap.

Local Open Scope Z_scope.

(** ** Machine integers *)

Module CInt.

(** Conversion to [uint32_t]. *)
Definition to_u32 (z : Z) : Z := z mod 2 ^ 32.

(** The cast [(int) z]: the low 32 bits, read as two's complement. *)
Definition to_int (z : Z) : Z := (z + 2 ^ 31) mod 2 ^ 32 - 2 ^ 31.

Definition INT_MIN : Z := - 2 ^ 31.
Definition INT_MAX : Z := 2 ^ 31 - 1.

End CInt.
Import CInt.

(** ** User memory and the kernel's probing read *)

Module Mem.

(** The traced process' address space, as the kernel sees it from a
    probe: an address is either mapped to a byte or faults. *)
Definition user_memory : Type := Z -> option byte.

(** [n] consecutive bytes from [addr]; [None] as soon as one faults. *)
Fixpoint read_bytes (m : user_memory) (addr : Z) (n : nat) : option (list byte) :=
  match n with
  | O => Some []
  | S n' =>
      match m addr, read_bytes m (addr + 1) n' with
      | Some b, Some bs => Some (b :: bs)
      | _, _ => None
      end
  end.

(** [bpf_probe_read(dst, size, src)]: copies [size] bytes from the
    unsafe address [src] to the front of [dst]; when the source
    faults the kernel zero-fills the [size] destination bytes
    instead.  The bytes of [dst] from offset [size] on are not
    touched.  A [size] larger than the destination would show as a
    result longer than [dst]. *)
Definition bpf_probe_read (dst : list byte) (size : Z) (src : Z)
    (m : user_memory) : list byte :=
  let n := Z.to_nat size in
  match read_bytes m src n with
  | Some bs => bs ++ drop n dst
  | None => replicate n x00 ++ drop n dst
  end.

(** Little-endian value of a byte string. *)
Fixpoint le_value (bs : list byte) : Z :=
  match bs with
  | [] => 0
  | b :: bs' => Z.of_N (Byte.to_N b) + 256 * le_value bs'
  end.

(** The dereference [*p] of a [size_t*] into user memory.  bcc turns
    it into a [bpf_probe_read] of [sizeof(size_t)] bytes into a
    zeroed temporary, so a faulting pointer reads as 0. *)
Definition load_size_t (m : user_memory) (p : Z) : Z :=
  match read_bytes m p 8 with
  | Some bs => le_value bs
  | None => 0
  end.

(** Two memories that agree (mapping and contents) on [[addr, addr+n)]. *)
Definition agree_on (m m' : user_memory) (addr : Z) (n : nat) : Prop :=
  forall i : Z, addr <= i < addr + Z.of_nat n -> m i = m' i.

End Mem.
Import Mem.

(** ** Types of [openssl_tracer_types.h] *)

(** Modelled from the spec: [MAX_DATA_SIZE] is defined in
    [openssl_tracer_types.h], which is not among the sources; the spec
    fixes it as a power of two and uses 4096. *)
Definition MAX_DATA_SIZE : Z := 4096.

(** Modelled from the spec: [enum ssl_data_event_type], the call kind
    {read, write} of [openssl_tracer_types.h]. *)
Inductive ssl_data_event_type : Type :=
  | kSSLRead
  | kSSLWrite.

(** Modelled from the spec: [struct ssl_data_event_t] of
    [openssl_tracer_types.h], with the fields the probe functions
    assign.  [data] is the [char data[MAX_DATA_SIZE]] payload region. *)
Record ssl_data_event_t : Type := mk_event {
  type : ssl_data_event_type;
  timestamp_ns : Z;
  pid : Z;
  tid : Z;
  data : list byte;
  data_len : Z
}.

Definition set_type (v : ssl_data_event_type) (e : ssl_data_event_t) :=
  mk_event v (timestamp_ns e) (pid e) (tid e) (data e) (data_len e).
Definition set_timestamp_ns (v : Z) (e : ssl_data_event_t) :=
  mk_event (type e) v (pid e) (tid e) (data e) (data_len e).
Definition set_pid (v : Z) (e : ssl_data_event_t) :=
  mk_event (type e) (timestamp_ns e) v (tid e) (data e) (data_len e).
Definition set_tid (v : Z) (e : ssl_data_event_t) :=
  mk_event (type e) (timestamp_ns e) (pid e) v (data e) (data_len e).
Definition set_data (v : list byte) (e : ssl_data_event_t) :=
  mk_event (type e) (timestamp_ns e) (pid e) (tid e) v (data_len e).
Definition set_data_len (v : Z) (e : ssl_data_event_t) :=
  mk_event (type e) (timestamp_ns e) (pid e) (tid e) (data e) v.

(** [struct buffer]: the pending record of the read-with-count shape. *)
Record buffer : Type := mk_buffer {
  content : Z;
  len : Z
}.

(** ** BPF maps *)

Module BpfMap.

(** bcc's default [max_entries] of a [BPF_HASH]. *)
Definition hash_max_entries : Z := 10240.

(** [map.update(&key, &val)]: insert or overwrite; a new key is
    refused once the table is full, and the call fails silently. *)
Definition hash_update {V : Type} (m : gmap Z V) (key : Z) (val : V) : gmap Z V :=
  match m !! key with
  | Some _ => <[key := val]> m
  | None =>
      if Z.of_nat (size m) <? hash_max_entries then <[key := val]> m else m
  end.

(** [map.lookup(&key)]: [None] is the [NULL] result. *)
Definition hash_lookup {V : Type} (m : gmap Z V) (key : Z) : option V := m !! key.

(** [map.delete(&key)]. *)
Definition hash_delete {V : Type} (m : gmap Z V) (key : Z) : gmap Z V := delete key m.

(** A [BPF_PERCPU_ARRAY(name, T, 1)]: on every processor one array of
    a single element. *)
Definition percpu_array (T : Type) : Type := nat -> T.

(** [array.lookup(&key)] on processor [cpu]: the element of index 0
    exists, any other index is [NULL]. *)
Definition percpu_lookup {T : Type} (a : percpu_array T) (cpu : nat) (key : Z) : option T :=
  if key =? 0 then Some (a cpu) else None.

(** A store through the pointer that [lookup(&kZero)] returned on
    processor [cpu]. *)
Definition percpu_store {T : Type} (a : percpu_array T) (cpu : nat) (v : T) : percpu_array T :=
  fun c => if (c =? cpu)%nat then v else a c.

End BpfMap.
Import BpfMap.

(** ** What a probe sees when it fires *)

(** [struct pt_regs]: the registers the probes read through the
    [PT_REGS_*] macros. *)
Record pt_regs : Type := mk_regs {
  PT_REGS_RC : Z;
  PT_REGS_PARM2 : Z;
  PT_REGS_PARM4 : Z
}.

(** The answers of the kernel helpers during one handler invocation:
    the running thread's identity, the clock, the processor the
    handler runs on, and the traced process' memory. *)
Record kernel : Type := mk_kernel {
  bpf_get_current_pid_tgid : Z;
  bpf_ktime_get_ns : Z;
  smp_processor_id : nat;
  user_mem : user_memory
}.

(** ** The BPF program's maps *)

Record bpf_state : Type := mk_state {
  active_ssl_read_args_map : gmap Z Z;
  active_ssl_write_args_map : gmap Z Z;
  active_ssl_readex_buf_len_map : gmap Z buffer;
  data_buffer_heap : percpu_array ssl_data_event_t;
  args_buffer_heap : percpu_array buffer;
  tls_events : list ssl_data_event_t
}.

Definition set_read_args_map (m : gmap Z Z) (s : bpf_state) : bpf_state :=
  mk_state m (active_ssl_write_args_map s) (active_ssl_readex_buf_len_map s)
    (data_buffer_heap s) (args_buffer_heap s) (tls_events s).
Definition set_write_args_map (m : gmap Z Z) (s : bpf_state) : bpf_state :=
  mk_state (active_ssl_read_args_map s) m (active_ssl_readex_buf_len_map s)
    (data_buffer_heap s) (args_buffer_heap s) (tls_events s).
Definition set_readex_buf_len_map (m : gmap Z buffer) (s : bpf_state) : bpf_state :=
  mk_state (active_ssl_read_args_map s) (active_ssl_write_args_map s) m
    (data_buffer_heap s) (args_buffer_heap s) (tls_events s).
Definition set_data_buffer_heap (h : percpu_array ssl_data_event_t) (s : bpf_state) : bpf_state :=
  mk_state (active_ssl_read_args_map s) (active_ssl_write_args_map s)
    (active_ssl_readex_buf_len_map s) h (args_buffer_heap s) (tls_events s).
Definition set_args_buffer_heap (h : percpu_array buffer) (s : bpf_state) : bpf_state :=
  mk_state (active_ssl_read_args_map s) (active_ssl_write_args_map s)
    (active_ssl_readex_buf_len_map s) (data_buffer_heap s) h (tls_events s).
Definition set_tls_events (l : list ssl_data_event_t) (s : bpf_state) : bpf_state :=
  mk_state (active_ssl_read_args_map s) (active_ssl_write_args_map s)
    (active_ssl_readex_buf_len_map s) (data_buffer_heap s) (args_buffer_heap s) l.

(** The event record in the scratch slot of the processor running [k]:
    what the pointer returned by [create_ssl_data_event] points to. *)
Definition event_slot (k : kernel) (s : bpf_state) : ssl_data_event_t :=
  data_buffer_heap s (smp_processor_id k).

(** An assignment [event->field = v] through that pointer. *)
Definition event_store (k : kernel) (f : ssl_data_event_t -> ssl_data_event_t)
    (s : bpf_state) : bpf_state :=
  set_data_buffer_heap
    (percpu_store (data_buffer_heap s) (smp_processor_id k) (f (event_slot k s))) s.

(** [tls_events.perf_submit(ctx, event, sizeof(struct ssl_data_event_t))]:
    the whole record in the slot is handed to the perf buffer. *)
Definition perf_submit (k : kernel) (s : bpf_state) : bpf_state :=
  set_tls_events (tls_events s ++ [event_slot k s]) s.

(** ** General helper functions *)

(** Returns [None] for [NULL]; otherwise the slot of this processor has
    been stamped and the caller goes on writing through [event_store]. *)
Definition create_ssl_data_event (k : kernel) (current_pid_tgid : Z)
    (s : bpf_state) : option bpf_state :=
  let kZero := 0 in
  match percpu_lookup (data_buffer_heap s) (smp_processor_id k) kZero with
  | None => None
  | Some _ =>
      let kMask32b := 0xffffffff in
      let s := event_store k (set_timestamp_ns (bpf_ktime_get_ns k)) s in
      let s := event_store k (set_pid (to_u32 (Z.shiftr current_pid_tgid 32))) s in
      let s := event_store k (set_tid (to_u32 (Z.land current_pid_tgid kMask32b))) s in
      Some s
  end.

(** Returns the [struct buffer] scratch slot of this processor. *)
Definition create_ssl_args_buffer (k : kernel) (s : bpf_state) : option buffer :=
  let kZero := 0 in
  match percpu_lookup (args_buffer_heap s) (smp_processor_id k) kZero with
  | None => None
  | Some _buf => Some _buf
  end.

(** ** BPF syscall processing functions *)

(** Both functions return 0 on every path; the embedding returns the
    maps they leave behind. *)
Definition process_SSL_data (k : kernel) (ctx : pt_regs) (id : Z)
    (type : ssl_data_event_type) (buf : Z) (s : bpf_state) : bpf_state :=
  let len := to_int (PT_REGS_RC ctx) in
  if len <? 0 then s
  else
    match create_ssl_data_event k id s with
    | None => s
    | Some s =>
        let s := event_store k (set_type type) s in
        let s := event_store k
          (set_data_len
             (if len <? MAX_DATA_SIZE then Z.land len (MAX_DATA_SIZE - 1)
              else MAX_DATA_SIZE)) s in
        let s := event_store k
          (fun event =>
             set_data
               (bpf_probe_read (data event) (to_u32 (data_len event)) buf (user_mem k))
               event) s in
        perf_submit k s
    end.

Definition process_SSL_ex_data (k : kernel) (ctx : pt_regs) (id : Z)
    (type : ssl_data_event_type) (_buf : buffer) (s : bpf_state) : bpf_state :=
  let is_success := to_int (PT_REGS_RC ctx) in
  if is_success =? 0 then s
  else
    match create_ssl_data_event k id s with
    | None => s
    | Some s =>
        let length := to_int (load_size_t (user_mem k) (len _buf)) in
        let s := event_store k (set_type type) s in
        let s := event_store k
          (set_data_len
             (if length <? MAX_DATA_SIZE then Z.land length (MAX_DATA_SIZE - 1)
              else MAX_DATA_SIZE)) s in
        let s := event_store k
          (fun event =>
             set_data
               (bpf_probe_read (data event) (to_u32 (data_len event)) (content _buf)
                  (user_mem k))
               event) s in
        perf_submit k s
    end.

(** The process id a handler computes from the thread identity. *)
Definition pid_of (k : kernel) : Z :=
  to_u32 (Z.shiftr (bpf_get_current_pid_tgid k) 32).

(** ** BPF probe function entry-points *)

Section Probes.

(** [TRACE_PID]: the target process id, substituted into the program
    text by the loader before compilation. *)
Variable TRACE_PID : Z.

(** int SSL_write(SSL *ssl, const void *buf, int num); *)
Definition probe_entry_SSL_write (k : kernel) (ctx : pt_regs) (s : bpf_state) : bpf_state :=
  let current_pid_tgid := bpf_get_current_pid_tgid k in
  let pid := to_u32 (Z.shiftr current_pid_tgid 32) in
  if negb (pid =? TRACE_PID) then s
  else
    let buf := PT_REGS_PARM2 ctx in
    set_write_args_map
      (hash_update (active_ssl_write_args_map s) current_pid_tgid buf) s.

Definition probe_ret_SSL_write (k : kernel) (ctx : pt_regs) (s : bpf_state) : bpf_state :=
  let current_pid_tgid := bpf_get_current_pid_tgid k in
  let pid := to_u32 (Z.shiftr current_pid_tgid 32) in
  if negb (pid =? TRACE_PID) then s
  else
    let s :=
      match hash_lookup (active_ssl_write_args_map s) current_pid_tgid with
      | Some buf => process_SSL_data k ctx current_pid_tgid kSSLWrite buf s
      | None => s
      end in
    set_write_args_map
      (hash_delete (active_ssl_write_args_map s) current_pid_tgid) s.

(** int SSL_read(SSL *s, void *buf, int num) *)
Definition probe_entry_SSL_read (k : kernel) (ctx : pt_regs) (s : bpf_state) : bpf_state :=
  let current_pid_tgid := bpf_get_current_pid_tgid k in
  let pid := to_u32 (Z.shiftr current_pid_tgid 32) in
  if negb (pid =? TRACE_PID) then s
  else
    let buf := PT_REGS_PARM2 ctx in
    set_read_args_map
      (hash_update (active_ssl_read_args_map s) current_pid_tgid buf) s.

Definition probe_ret_SSL_read (k : kernel) (ctx : pt_regs) (s : bpf_state) : bpf_state :=
  let current_pid_tgid := bpf_get_current_pid_tgid k in
  let pid := to_u32 (Z.shiftr current_pid_tgid 32) in
  if negb (pid =? TRACE_PID) then s
  else
    let s :=
      match hash_lookup (active_ssl_read_args_map s) current_pid_tgid with
      | Some buf => process_SSL_data k ctx current_pid_tgid kSSLRead buf s
      | None => s
      end in
    set_read_args_map
      (hash_delete (active_ssl_read_args_map s) current_pid_tgid) s.

(** int SSL_read_ex(SSL *ssl, void *buf, size_t num, size_t *readbytes); *)
Definition probe_entry_SSL_read_ex (k : kernel) (ctx : pt_regs) (s : bpf_state) : bpf_state :=
  let current_pid_tgid := bpf_get_current_pid_tgid k in
  let pid := to_u32 (Z.shiftr current_pid_tgid 32) in
  if negb (pid =? TRACE_PID) then s
  else
    let buf := PT_REGS_PARM2 ctx in
    let buf_len := PT_REGS_PARM4 ctx in
    match create_ssl_args_buffer k s with
    | None => s
    | Some _ =>
        let _buf := mk_buffer buf buf_len in
        let s :=
          set_args_buffer_heap
            (percpu_store (args_buffer_heap s) (smp_processor_id k) _buf) s in
        set_readex_buf_len_map
          (hash_update (active_ssl_readex_buf_len_map s) current_pid_tgid _buf) s
    end.

(** The last statement deletes from [active_ssl_read_args_map], as
    the source does. *)
Definition probe_ret_SSL_read_ex (k : kernel) (ctx : pt_regs) (s : bpf_state) : bpf_state :=
  let current_pid_tgid := bpf_get_current_pid_tgid k in
  let pid := to_u32 (Z.shiftr current_pid_tgid 32) in
  if negb (pid =? TRACE_PID) then s
  else
    let s :=
      match hash_lookup (active_ssl_readex_buf_len_map s) current_pid_tgid with
      | Some _buf => process_SSL_ex_data k ctx current_pid_tgid kSSLRead _buf s
      | None => s
      end in
    set_read_args_map
      (hash_delete (active_ssl_read_args_map s) current_pid_tgid) s.

(** *** Sequences of handler invocations *)

Inductive probe : Type :=
  | Entry_SSL_write
  | Ret_SSL_write
  | Entry_SSL_read
  | Ret_SSL_read
  | Entry_SSL_read_ex
  | Ret_SSL_read_ex.

Definition handler (p : probe) : kernel -> pt_regs -> bpf_state -> bpf_state :=
  match p with
  | Entry_SSL_write => probe_entry_SSL_write
  | Ret_SSL_write => probe_ret_SSL_write
  | Entry_SSL_read => probe_entry_SSL_read
  | Ret_SSL_read => probe_ret_SSL_read
  | Entry_SSL_read_ex => probe_entry_SSL_read_ex
  | Ret_SSL_read_ex => probe_ret_SSL_read_ex
  end.

(** One firing of a probe. *)
Record invocation : Type := mk_invocation {
  inv_probe : probe;
  inv_kernel : kernel;
  inv_regs : pt_regs
}.

Definition step (s : bpf_state) (i : invocation) : bpf_state :=
  handler (inv_probe i) (inv_kernel i) (inv_regs i) s.

(** The handlers run to completion one after the other. *)
Definition run (tr : list invocation) (s : bpf_state) : bpf_state :=
  fold_left step tr s.

(** Invocations of other processes can be erased from any trace. *)
Definition targets (i : invocation) : bool := pid_of (inv_kernel i) =? TRACE_PID.

End Probes.

(** ** Vocabulary of the statements *)

(** The expression both materializers assign to [data_len]. *)
Definition clamp (M l : Z) : Z :=
  if l <? M then Z.land l (M - 1) else M.

(** The record a successful materialization leaves in the slot and
    publishes: [l] is the length before clamping, [src] the captured
    buffer pointer, [old] the slot's previous content. *)
Definition materialized (k : kernel) (id : Z) (ty : ssl_data_event_type)
    (src l : Z) (old : ssl_data_event_t) : ssl_data_event_t :=
  mk_event ty (bpf_ktime_get_ns k)
    (to_u32 (Z.shiftr id 32)) (to_u32 (Z.land id 0xffffffff))
    (bpf_probe_read (data old) (to_u32 (clamp MAX_DATA_SIZE l)) src (user_mem k))
    (clamp MAX_DATA_SIZE l).

Definition data_len_in_range (e : ssl_data_event_t) : Prop :=
  0 <= data_len e <= MAX_DATA_SIZE.

(** The maps as the loader creates them: empty tables, zeroed slots. *)
Definition zero_event : ssl_data_event_t :=
  mk_event kSSLRead 0 0 0 (replicate (Z.to_nat MAX_DATA_SIZE) x00) 0.

Definition init_state : bpf_state :=
  mk_state ∅ ∅ ∅ (fun _ => zero_event) (fun _ => mk_buffer 0 0) [].

(** Every processor's payload region has its declared capacity. *)
Definition wf_state (s : bpf_state) : Prop :=
  forall cpu, length (data (data_buffer_heap s cpu)) = Z.to_nat MAX_DATA_SIZE.

(** The same invocation over another memory. *)
Definition with_mem (m : user_memory) (k : kernel) : kernel :=
  mk_kernel (bpf_get_current_pid_tgid k) (bpf_ktime_get_ns k) (smp_processor_id k) m.

(** Pointwise equality of two states. *)
Definition state_eq (s s' : bpf_state) : Prop :=
  active_ssl_read_args_map s = active_ssl_read_args_map s' /\
  active_ssl_write_args_map s = active_ssl_write_args_map s' /\
  active_ssl_readex_buf_len_map s = active_ssl_readex_buf_len_map s' /\
  (forall cpu, data_buffer_heap s cpu = data_buffer_heap s' cpu) /\
  (forall cpu, args_buffer_heap s cpu = args_buffer_heap s' cpu) /\
  tls_events s = tls_events s'.

Module Scenario.

Definition target : Z := 1234.

(** Two threads of the target process and one of another process. *)
Definition thread_A : Z := 1234 * 2 ^ 32 + 1.
Definition thread_B : Z := 1234 * 2 ^ 32 + 2.
Definition stranger : Z := 77 * 2 ^ 32 + 1.

(** [bs] mapped at [base], nothing else. *)
Definition region (base : Z) (bs : list byte) : user_memory :=
  fun a =>
    if (base <=? a) && (a <? base + Z.of_nat (length bs))
    then bs !! Z.to_nat (a - base) else None.

Definition overlay (m1 m2 : user_memory) : user_memory :=
  fun a => match m1 a with Some b => Some b | None => m2 a end.

Definition buf_A : Z := 0x1000.
Definition buf_B : Z := 0x2000.
Definition readbytes_ptr : Z := 0x3000.
Definition huge_ptr : Z := 0x3100.

(** "0123456789abcdef" *)
Definition bytes_A : list byte :=
  [x30; x31; x32; x33; x34; x35; x36; x37; x38; x39; x61; x62; x63; x64; x65; x66].
(** "hi" *)
Definition bytes_B : list byte := [x68; x69].

(** [buf_A] and [buf_B] hold the two strings, [*readbytes_ptr] is 10
    and [*huge_ptr] is [SIZE_MAX]. *)
Definition mem : user_memory :=
  overlay (region buf_A bytes_A)
    (overlay (region buf_B bytes_B)
       (overlay (region readbytes_ptr [x0a; x00; x00; x00; x00; x00; x00; x00])
          (region huge_ptr [xff; xff; xff; xff; xff; xff; xff; xff]))).

Definition on_A : kernel := mk_kernel thread_A 1000 0 mem.
Definition on_B : kernel := mk_kernel thread_B 2000 0 mem.
Definition on_stranger : kernel := mk_kernel stranger 3000 0 mem.

(** Registers at the entry of a call with [buf] and [readbytes]. *)
Definition at_entry (buf readbytes : Z) : pt_regs := mk_regs 0 buf readbytes.
(** Registers at a return with value [rc]. *)
Definition at_return (rc : Z) : pt_regs := mk_regs rc 0 0.

(** A write table filled to capacity by threads 0 .. 10239. *)
Definition full_table : gmap Z Z :=
  list_to_map (map (fun i : nat => (Z.of_nat i, 0)) (seq 0 (Z.to_nat hash_max_entries))).

Definition full_state : bpf_state :=
  mk_state ∅ full_table ∅ (fun _ => zero_event) (fun _ => mk_buffer 0 0) [].

End Scenario.

(** ** Calls, as sequences of probe firings *)

(** The three probed functions. *)
Inductive shape : Type :=
  | Write
  | Read
  | ReadEx.

Definition entry_probe (sh : shape) : probe :=
  match sh with
  | Write => Entry_SSL_write
  | Read => Entry_SSL_read
  | ReadEx => Entry_SSL_read_ex
  end.

Definition ret_probe (sh : shape) : probe :=
  match sh with
  | Write => Ret_SSL_write
  | Read => Ret_SSL_read
  | ReadEx => Ret_SSL_read_ex
  end.

Definition is_ret (p : probe) : bool :=
  match p with
  | Ret_SSL_write | Ret_SSL_read | Ret_SSL_read_ex => true
  | _ => false
  end.

(** The kind a return handler passes to its materializer. *)
Definition kind_of (p : probe) : ssl_data_event_type :=
  match p with
  | Entry_SSL_write | Ret_SSL_write => kSSLWrite
  | _ => kSSLRead
  end.

(** One completed call: what the kernel and the registers looked like
    when the entry probe and then the return probe fired. *)
Record call : Type := mk_call {
  call_shape : shape;
  call_entry_kernel : kernel;
  call_entry_regs : pt_regs;
  call_ret_kernel : kernel;
  call_ret_regs : pt_regs
}.

Definition call_trace (c : call) : list invocation :=
  [mk_invocation (entry_probe (call_shape c)) (call_entry_kernel c) (call_entry_regs c);
   mk_invocation (ret_probe (call_shape c)) (call_ret_kernel c) (call_ret_regs c)].

(** The test each materializer applies to the return register. *)
Definition succeeded (c : call) : bool :=
  match call_shape c with
  | ReadEx => negb (to_int (PT_REGS_RC (call_ret_regs c)) =? 0)
  | _ => negb (to_int (PT_REGS_RC (call_ret_regs c)) <? 0)
  end.

(** Not counting the entry of [key] itself, the table has room: an
    update of [key] is then never refused. *)
Definition own_room {V : Type} (m : gmap Z V) (key : Z) : Prop :=
  Z.of_nat (size (delete key m)) < hash_max_entries.

(** Every pending record belongs to a thread of process [p]. *)
Definition keys_of_process (p : Z) (s : bpf_state) : Prop :=
  (forall key, is_Some (active_ssl_read_args_map s !! key) ->
     to_u32 (Z.shiftr key 32) = p) /\
  (forall key, is_Some (active_ssl_write_args_map s !! key) ->
     to_u32 (Z.shiftr key 32) = p) /\
  (forall key, is_Some (active_ssl_readex_buf_len_map s !! key) ->
     to_u32 (Z.shiftr key 32) = p).

(** What [handler p] adds to [tls_events] on a target thread. *)
Definition published_by (p : probe) (k : kernel) (ctx : pt_regs) (s : bpf_state)
    : list ssl_data_event_t :=
  let id := bpf_get_current_pid_tgid k in
  match p with
  | Ret_SSL_write =>
      match active_ssl_write_args_map s !! id with
      | Some buf =>
          if to_int (PT_REGS_RC ctx) <? 0 then []
          else [materialized k id kSSLWrite buf (to_int (PT_REGS_RC ctx)) (event_slot k s)]
      | None => []
      end
  | Ret_SSL_read =>
      match active_ssl_read_args_map s !! id with
      | Some buf =>
          if to_int (PT_REGS_RC ctx) <? 0 then []
          else [materialized k id kSSLRead buf (to_int (PT_REGS_RC ctx)) (event_slot k s)]
      | None => []
      end
  | Ret_SSL_read_ex =>
      match active_ssl_readex_buf_len_map s !! id with
      | Some _buf =>
          if to_int (PT_REGS_RC ctx) =? 0 then []
          else [materialized k id kSSLRead (content _buf)
                  (to_int (load_size_t (user_mem k) (len _buf))) (event_slot k s)]
      | None => []
      end
  | _ => []
  end.

(** The table of a shape has room for the record of thread [id]. *)
Definition shape_room (sh : shape) (s : bpf_state) (id : Z) : Prop :=
  match sh with
  | Write => own_room (active_ssl_write_args_map s) id
  | Read => own_room (active_ssl_read_args_map s) id
  | ReadEx => own_room (active_ssl_readex_buf_len_map s) id
  end.

(** The record the return of call [c] materializes in a slot that held
    [old]: built from the pointers captured at the call's own entry. *)
Definition call_event (c : call) (old : ssl_data_event_t) : ssl_data_event_t :=
  let kR := call_ret_kernel c in
  let id := bpf_get_current_pid_tgid kR in
  match call_shape c with
  | Write =>
      materialized kR id kSSLWrite (PT_REGS_PARM2 (call_entry_regs c))
        (to_int (PT_REGS_RC (call_ret_regs c))) old
  | Read =>
      materialized kR id kSSLRead (PT_REGS_PARM2 (call_entry_regs c))
        (to_int (PT_REGS_RC (call_ret_regs c))) old
  | ReadEx =>
      materialized kR id kSSLRead (PT_REGS_PARM2 (call_entry_regs c))
        (to_int (load_size_t (user_mem kR) (PT_REGS_PARM4 (call_entry_regs c)))) old
  end.

(** Call [c] is made by thread [id]. *)
Definition on_thread (id : Z) (c : call) : Prop :=
  bpf_get_current_pid_tgid (call_entry_kernel c) = id /\
  bpf_get_current_pid_tgid (call_ret_kernel c) = id.

(** * Properties *)

(** ** Integer conversions and the length clamp *)

Lemma to_int_range z : INT_MIN <= to_int z <= INT_MAX.
Proof.
  unfold to_int, INT_MIN, INT_MAX.
  pose proof (Z.mod_pos_bound (z + 2 ^ 31) (2 ^ 32) ltac:(lia)). lia.
Qed.

Lemma to_int_small z : INT_MIN <= z <= INT_MAX -> to_int z = z.
Proof.
  unfold to_int, INT_MIN, INT_MAX. intros Hz.
  rewrite Z.mod_small by lia. lia.
Qed.

Lemma to_u32_small z : 0 <= z < 2 ^ 32 -> to_u32 z = z.
Proof. unfold to_u32. intros Hz. now rewrite Z.mod_small. Qed.

Lemma land_ones_range (l j : Z) : 0 <= j -> 0 <= Z.land l (2 ^ j - 1) < 2 ^ j.
Proof.
  intros Hj. replace (2 ^ j - 1) with (Z.ones j) by (rewrite Z.ones_equiv; lia).
  rewrite Z.land_ones by lia. apply Z.mod_pos_bound. lia.
Qed.

Lemma land_ones_small (l j : Z) : 0 <= j -> 0 <= l < 2 ^ j -> Z.land l (2 ^ j - 1) = l.
Proof.
  intros Hj Hl. replace (2 ^ j - 1) with (Z.ones j) by (rewrite Z.ones_equiv; lia).
  rewrite Z.land_ones by lia. now apply Z.mod_small.
Qed.

(** For a power of two the masked branch is the identity, so the clamp
    is a minimum on non-negative lengths. *)
Lemma clamp_pow2_min (j l : Z) : 0 <= j -> 0 <= l -> clamp (2 ^ j) l = Z.min l (2 ^ j).
Proof.
  intros Hj Hl. unfold clamp. destruct (Z.ltb_spec l (2 ^ j)).
  - rewrite land_ones_small by lia. lia.
  - lia.
Qed.

(** Whatever the length, negative ones included, the clamp lands in
    the payload's capacity. *)
Lemma clamp_pow2_range (j l : Z) : 0 <= j -> 0 <= clamp (2 ^ j) l <= 2 ^ j.
Proof.
  intros Hj. unfold clamp. destruct (Z.ltb_spec l (2 ^ j)).
  - pose proof (land_ones_range l j Hj). lia.
  - lia.
Qed.

Lemma clamp_pow2_neg (j l : Z) : 0 <= j -> l < 0 -> 0 <= clamp (2 ^ j) l < 2 ^ j.
Proof.
  intros Hj Hl. unfold clamp. destruct (Z.ltb_spec l (2 ^ j)).
  - apply land_ones_range; lia.
  - lia.
Qed.

Lemma MAX_DATA_SIZE_pow2 : MAX_DATA_SIZE = 2 ^ 12.
Proof. reflexivity. Qed.

Lemma clamp_MAX_min l : 0 <= l -> clamp MAX_DATA_SIZE l = Z.min l MAX_DATA_SIZE.
Proof. rewrite MAX_DATA_SIZE_pow2. now apply clamp_pow2_min. Qed.

Lemma clamp_MAX_range l : 0 <= clamp MAX_DATA_SIZE l <= MAX_DATA_SIZE.
Proof. rewrite MAX_DATA_SIZE_pow2. now apply clamp_pow2_range. Qed.

Lemma to_u32_clamp l : to_u32 (clamp MAX_DATA_SIZE l) = clamp MAX_DATA_SIZE l.
Proof.
  apply to_u32_small. pose proof (clamp_MAX_range l).
  unfold MAX_DATA_SIZE in *. lia.
Qed.

(** ** The probing read *)

Lemma read_bytes_length m n : forall addr bs,
  read_bytes m addr n = Some bs -> length bs = n.
Proof.
  induction n as [|n IH]; intros addr bs; simpl.
  - now intros [= <-].
  - destruct (m addr) as [b|]; [|discriminate].
    destruct (read_bytes m (addr + 1) n) as [bs'|] eqn:E; [|discriminate].
    intros [= <-]. simpl. f_equal. eauto.
Qed.

Lemma read_bytes_agree m m' n : forall addr,
  agree_on m m' addr n -> read_bytes m addr n = read_bytes m' addr n.
Proof.
  induction n as [|n IH]; intros addr Hag; simpl; [reflexivity|].
  rewrite <- (Hag addr) by lia.
  rewrite (IH (addr + 1)); [reflexivity|].
  intros i Hi. apply Hag. lia.
Qed.

Lemma read_bytes_lookup m n : forall addr bs (i : nat),
  read_bytes m addr n = Some bs -> (i < n)%nat ->
  m (addr + Z.of_nat i) = bs !! i.
Proof.
  induction n as [|n IH]; intros addr bs i; simpl; [lia|].
  destruct (m addr) as [b|] eqn:Eb; [|discriminate].
  destruct (read_bytes m (addr + 1) n) as [bs'|] eqn:E; [|discriminate].
  intros [= <-] Hi. destruct i as [|i].
  - simpl. now rewrite Z.add_0_r.
  - simpl. rewrite <- (IH (addr + 1) bs' i E) by lia. f_equal. lia.
Qed.

(** When every byte of the range is mapped the read does not fault. *)
Lemma read_bytes_mapped m n : forall addr,
  (forall i, addr <= i < addr + Z.of_nat n -> is_Some (m i)) ->
  is_Some (read_bytes m addr n).
Proof.
  induction n as [|n IH]; intros addr Hm; simpl; [eauto|].
  destruct (Hm addr ltac:(lia)) as [b ->].
  destruct (IH (addr + 1)) as [bs ->]; [|eauto].
  intros i Hi. apply Hm. lia.
Qed.

Lemma bpf_probe_read_agree dst size src m m' :
  agree_on m m' src (Z.to_nat size) ->
  bpf_probe_read dst size src m = bpf_probe_read dst size src m'.
Proof. intros Hag. unfold bpf_probe_read. now rewrite (read_bytes_agree m m'). Qed.

(** The destination keeps its size as long as [size] fits in it. *)
Lemma bpf_probe_read_length dst size src m :
  (Z.to_nat size <= length dst)%nat ->
  length (bpf_probe_read dst size src m) = length dst.
Proof.
  intros Hsz. unfold bpf_probe_read.
  destruct (read_bytes m src (Z.to_nat size)) as [bs|] eqn:E;
    rewrite length_app, length_drop.
  - rewrite (read_bytes_length _ _ _ _ E). lia.
  - rewrite length_replicate. lia.
Qed.

(** Past [size] the destination is left as it was. *)
Lemma bpf_probe_read_drop dst size src m :
  drop (Z.to_nat size) (bpf_probe_read dst size src m) = drop (Z.to_nat size) dst.
Proof.
  unfold bpf_probe_read.
  destruct (read_bytes m src (Z.to_nat size)) as [bs|] eqn:E.
  - rewrite drop_app_length'; [reflexivity|]. now apply read_bytes_length in E.
  - rewrite drop_app_length'; [reflexivity|]. now rewrite length_replicate.
Qed.

Lemma bpf_probe_read_take dst size src m bs :
  read_bytes m src (Z.to_nat size) = Some bs ->
  take (Z.to_nat size) (bpf_probe_read dst size src m) = bs.
Proof.
  intros E. unfold bpf_probe_read. rewrite E.
  rewrite take_app_length'; [reflexivity|]. now apply read_bytes_length in E.
Qed.

(** ** The event materializers *)

Lemma percpu_store_same {T : Type} (a : percpu_array T) cpu v :
  percpu_store a cpu v cpu = v.
Proof. unfold percpu_store. now rewrite Nat.eqb_refl. Qed.

Lemma percpu_store_other {T : Type} (a : percpu_array T) cpu cpu' v :
  cpu' <> cpu -> percpu_store a cpu v cpu' = a cpu'.
Proof.
  intros Hne. unfold percpu_store.
  destruct (Nat.eqb_spec cpu' cpu); [contradiction|reflexivity].
Qed.

Section Materializers.

Variables (k : kernel) (ctx : pt_regs) (id : Z) (ty : ssl_data_event_type).

Lemma process_SSL_data_failed buf s :
  to_int (PT_REGS_RC ctx) < 0 -> process_SSL_data k ctx id ty buf s = s.
Proof.
  intros Hneg. unfold process_SSL_data.
  destruct (Z.ltb_spec (to_int (PT_REGS_RC ctx)) 0); [reflexivity|lia].
Qed.

Lemma process_SSL_data_events buf s :
  0 <= to_int (PT_REGS_RC ctx) ->
  tls_events (process_SSL_data k ctx id ty buf s) =
  tls_events s ++ [materialized k id ty buf (to_int (PT_REGS_RC ctx)) (event_slot k s)].
Proof.
  intros Hpos. unfold process_SSL_data.
  destruct (Z.ltb_spec (to_int (PT_REGS_RC ctx)) 0); [lia|].
  cbn. unfold event_slot. cbn. rewrite !percpu_store_same. reflexivity.
Qed.

Lemma process_SSL_data_slot buf s :
  0 <= to_int (PT_REGS_RC ctx) ->
  event_slot k (process_SSL_data k ctx id ty buf s) =
  materialized k id ty buf (to_int (PT_REGS_RC ctx)) (event_slot k s).
Proof.
  intros Hpos. unfold process_SSL_data.
  destruct (Z.ltb_spec (to_int (PT_REGS_RC ctx)) 0); [lia|].
  cbn. unfold event_slot. cbn. rewrite !percpu_store_same. reflexivity.
Qed.

Lemma process_SSL_ex_data_failed _buf s :
  to_int (PT_REGS_RC ctx) = 0 -> process_SSL_ex_data k ctx id ty _buf s = s.
Proof. intros Hz. unfold process_SSL_ex_data. now rewrite Hz. Qed.

Lemma process_SSL_ex_data_events _buf s :
  to_int (PT_REGS_RC ctx) <> 0 ->
  tls_events (process_SSL_ex_data k ctx id ty _buf s) =
  tls_events s ++
    [materialized k id ty (content _buf)
       (to_int (load_size_t (user_mem k) (len _buf))) (event_slot k s)].
Proof.
  intros Hnz. unfold process_SSL_ex_data.
  destruct (Z.eqb_spec (to_int (PT_REGS_RC ctx)) 0); [contradiction|].
  cbn. unfold event_slot. cbn. rewrite !percpu_store_same. reflexivity.
Qed.

Lemma process_SSL_ex_data_slot _buf s :
  to_int (PT_REGS_RC ctx) <> 0 ->
  event_slot k (process_SSL_ex_data k ctx id ty _buf s) =
  materialized k id ty (content _buf)
    (to_int (load_size_t (user_mem k) (len _buf))) (event_slot k s).
Proof.
  intros Hnz. unfold process_SSL_ex_data.
  destruct (Z.eqb_spec (to_int (PT_REGS_RC ctx)) 0); [contradiction|].
  cbn. unfold event_slot. cbn. rewrite !percpu_store_same. reflexivity.
Qed.

(** Neither materializer touches a correlation map or the argument
    scratch slots, and both leave the other processors' slots alone. *)
Lemma process_SSL_data_frame buf s :
  let s' := process_SSL_data k ctx id ty buf s in
  active_ssl_read_args_map s' = active_ssl_read_args_map s /\
  active_ssl_write_args_map s' = active_ssl_write_args_map s /\
  active_ssl_readex_buf_len_map s' = active_ssl_readex_buf_len_map s /\
  args_buffer_heap s' = args_buffer_heap s /\
  (forall cpu, cpu <> smp_processor_id k ->
     data_buffer_heap s' cpu = data_buffer_heap s cpu).
Proof.
  unfold process_SSL_data.
  destruct (to_int (PT_REGS_RC ctx) <? 0); cbn; [tauto|].
  repeat split; try reflexivity.
  intros cpu Hne. now rewrite !percpu_store_other.
Qed.

Lemma process_SSL_ex_data_frame _buf s :
  let s' := process_SSL_ex_data k ctx id ty _buf s in
  active_ssl_read_args_map s' = active_ssl_read_args_map s /\
  active_ssl_write_args_map s' = active_ssl_write_args_map s /\
  active_ssl_readex_buf_len_map s' = active_ssl_readex_buf_len_map s /\
  args_buffer_heap s' = args_buffer_heap s /\
  (forall cpu, cpu <> smp_processor_id k ->
     data_buffer_heap s' cpu = data_buffer_heap s cpu).
Proof.
  unfold process_SSL_ex_data.
  destruct (to_int (PT_REGS_RC ctx) =? 0); cbn; [tauto|].
  repeat split; try reflexivity.
  intros cpu Hne. now rewrite !percpu_store_other.
Qed.

End Materializers.

(** ** The probe handlers *)

Section ProbeFacts.

Variable TRACE_PID : Z.

Lemma handler_filtered p k ctx s :
  pid_of k <> TRACE_PID -> handler TRACE_PID p k ctx s = s.
Proof.
  intros Hne. unfold pid_of in Hne.
  destruct p; cbn;
    [unfold probe_entry_SSL_write | unfold probe_ret_SSL_write
    |unfold probe_entry_SSL_read | unfold probe_ret_SSL_read
    |unfold probe_entry_SSL_read_ex | unfold probe_ret_SSL_read_ex];
    destruct (Z.eqb_spec (to_u32 (Z.shiftr (bpf_get_current_pid_tgid k) 32)) TRACE_PID);
    try contradiction; reflexivity.
Qed.

(** What one materializer call appends to [tls_events]. *)
Lemma process_SSL_data_appends k ctx id ty buf s :
  exists new,
    tls_events (process_SSL_data k ctx id ty buf s) = tls_events s ++ new /\
    Forall data_len_in_range new.
Proof.
  destruct (Z.lt_ge_cases (to_int (PT_REGS_RC ctx)) 0) as [Hneg|Hpos].
  - exists []. rewrite process_SSL_data_failed by assumption.
    now rewrite app_nil_r.
  - eexists. split; [now apply process_SSL_data_events|].
    constructor; [|constructor]. apply clamp_MAX_range.
Qed.

Lemma process_SSL_ex_data_appends k ctx id ty _buf s :
  exists new,
    tls_events (process_SSL_ex_data k ctx id ty _buf s) = tls_events s ++ new /\
    Forall data_len_in_range new.
Proof.
  destruct (Z.eq_dec (to_int (PT_REGS_RC ctx)) 0) as [Hz|Hnz].
  - exists []. rewrite process_SSL_ex_data_failed by assumption.
    now rewrite app_nil_r.
  - eexists. split; [now apply process_SSL_ex_data_events|].
    constructor; [|constructor]. apply clamp_MAX_range.
Qed.

Lemma handler_appends p k ctx s :
  exists new,
    tls_events (handler TRACE_PID p k ctx s) = tls_events s ++ new /\
    Forall data_len_in_range new.
Proof.
  assert (Hnil : exists new : list ssl_data_event_t,
             tls_events s = tls_events s ++ new /\ Forall data_len_in_range new)
    by (exists []; now rewrite app_nil_r).
  destruct p; cbn;
    [unfold probe_entry_SSL_write | unfold probe_ret_SSL_write
    |unfold probe_entry_SSL_read | unfold probe_ret_SSL_read
    |unfold probe_entry_SSL_read_ex | unfold probe_ret_SSL_read_ex];
    destruct (negb _); try exact Hnil; cbn; try exact Hnil.
  - destruct (hash_lookup _ _); [apply process_SSL_data_appends|exact Hnil].
  - destruct (hash_lookup _ _); [apply process_SSL_data_appends|exact Hnil].
  - destruct (hash_lookup _ _); [apply process_SSL_ex_data_appends|exact Hnil].
Qed.

Lemma run_appends tr : forall s,
  exists new,
    tls_events (run TRACE_PID tr s) = tls_events s ++ new /\
    Forall data_len_in_range new.
Proof.
  induction tr as [|i tr IH]; intros s.
  - exists []. cbn. now rewrite app_nil_r.
  - change (run TRACE_PID (i :: tr) s) with (run TRACE_PID tr (step TRACE_PID s i)).
    destruct (handler_appends (inv_probe i) (inv_kernel i) (inv_regs i) s)
      as (new1 & E1 & F1).
    destruct (IH (step TRACE_PID s i)) as (new2 & E2 & F2).
    exists (new1 ++ new2). split.
    + rewrite E2. unfold step. rewrite E1. now rewrite app_assoc.
    + apply Forall_app. now split.
Qed.

Lemma run_filter_targets tr : forall s,
  run TRACE_PID tr s = run TRACE_PID (List.filter (targets TRACE_PID) tr) s.
Proof.
  induction tr as [|i tr IH]; intros s; [reflexivity|].
  change (run TRACE_PID (i :: tr) s) with (run TRACE_PID tr (step TRACE_PID s i)).
  cbn [List.filter]. unfold targets at 1.
  destruct (Z.eqb_spec (pid_of (inv_kernel i)) TRACE_PID) as [He|Hne].
  - change (run TRACE_PID (i :: List.filter (targets TRACE_PID) tr) s)
      with (run TRACE_PID (List.filter (targets TRACE_PID) tr) (step TRACE_PID s i)).
    apply IH.
  - unfold step. rewrite handler_filtered by assumption. apply IH.
Qed.

End ProbeFacts.

(** ** Correlation-map bookkeeping *)

Lemma hash_update_lookup_ne {V : Type} (m : gmap Z V) key key' val :
  key' <> key -> hash_update m key val !! key' = m !! key'.
Proof.
  intros Hne. unfold hash_update.
  destruct (m !! key); [now rewrite lookup_insert_ne|].
  destruct (_ <? _); [now rewrite lookup_insert_ne|reflexivity].
Qed.

(** An update takes effect when the key is already present or the
    table still has room. *)
Lemma hash_update_lookup_eq {V : Type} (m : gmap Z V) key val :
  is_Some (m !! key) \/ Z.of_nat (size m) < hash_max_entries ->
  hash_update m key val !! key = Some val.
Proof.
  intros Hroom. unfold hash_update.
  destruct (m !! key) as [v|] eqn:E; [now rewrite lookup_insert_eq|].
  destruct Hroom as [[v Hv]|Hlt]; [discriminate|].
  destruct (Z.ltb_spec (Z.of_nat (size m)) hash_max_entries); [|lia].
  now rewrite lookup_insert_eq.
Qed.

(** A refused update leaves the key absent. *)
Lemma hash_update_lookup_full {V : Type} (m : gmap Z V) key val :
  m !! key = None -> hash_max_entries <= Z.of_nat (size m) ->
  hash_update m key val = m.
Proof.
  intros E Hfull. unfold hash_update. rewrite E.
  destruct (Z.ltb_spec (Z.of_nat (size m)) hash_max_entries); [lia|reflexivity].
Qed.

Section Correlation.

Variable TRACE_PID : Z.
Variables (k : kernel) (ctx : pt_regs) (s : bpf_state).
Hypothesis Htarget : pid_of k = TRACE_PID.

Local Ltac pass_filter :=
  unfold pid_of in Htarget; rewrite Htarget, Z.eqb_refl; cbn [negb].

Lemma probe_entry_SSL_write_target :
  probe_entry_SSL_write TRACE_PID k ctx s =
  set_write_args_map
    (hash_update (active_ssl_write_args_map s) (bpf_get_current_pid_tgid k)
       (PT_REGS_PARM2 ctx)) s.
Proof. unfold probe_entry_SSL_write. now pass_filter. Qed.

Lemma probe_entry_SSL_read_target :
  probe_entry_SSL_read TRACE_PID k ctx s =
  set_read_args_map
    (hash_update (active_ssl_read_args_map s) (bpf_get_current_pid_tgid k)
       (PT_REGS_PARM2 ctx)) s.
Proof. unfold probe_entry_SSL_read. now pass_filter. Qed.

Lemma probe_entry_SSL_read_ex_target :
  active_ssl_readex_buf_len_map (probe_entry_SSL_read_ex TRACE_PID k ctx s) =
  hash_update (active_ssl_readex_buf_len_map s) (bpf_get_current_pid_tgid k)
    (mk_buffer (PT_REGS_PARM2 ctx) (PT_REGS_PARM4 ctx)).
Proof. unfold probe_entry_SSL_read_ex. now pass_filter. Qed.

Lemma probe_ret_SSL_write_target :
  probe_ret_SSL_write TRACE_PID k ctx s =
  let id := bpf_get_current_pid_tgid k in
  let s' :=
    match active_ssl_write_args_map s !! id with
    | Some buf => process_SSL_data k ctx id kSSLWrite buf s
    | None => s
    end in
  set_write_args_map (delete id (active_ssl_write_args_map s')) s'.
Proof. unfold probe_ret_SSL_write. now pass_filter. Qed.

Lemma probe_ret_SSL_read_target :
  probe_ret_SSL_read TRACE_PID k ctx s =
  let id := bpf_get_current_pid_tgid k in
  let s' :=
    match active_ssl_read_args_map s !! id with
    | Some buf => process_SSL_data k ctx id kSSLRead buf s
    | None => s
    end in
  set_read_args_map (delete id (active_ssl_read_args_map s')) s'.
Proof. unfold probe_ret_SSL_read. now pass_filter. Qed.

Lemma probe_ret_SSL_read_ex_target :
  probe_ret_SSL_read_ex TRACE_PID k ctx s =
  let id := bpf_get_current_pid_tgid k in
  let s' :=
    match active_ssl_readex_buf_len_map s !! id with
    | Some _buf => process_SSL_ex_data k ctx id kSSLRead _buf s
    | None => s
    end in
  set_read_args_map (delete id (active_ssl_read_args_map s')) s'.
Proof. unfold probe_ret_SSL_read_ex. now pass_filter. Qed.

(** The write and read return handlers evict their own pending record. *)
Lemma probe_ret_SSL_write_evicts :
  active_ssl_write_args_map (probe_ret_SSL_write TRACE_PID k ctx s)
    !! bpf_get_current_pid_tgid k = None.
Proof. rewrite probe_ret_SSL_write_target. cbn. apply lookup_delete_eq. Qed.

Lemma probe_ret_SSL_read_evicts :
  active_ssl_read_args_map (probe_ret_SSL_read TRACE_PID k ctx s)
    !! bpf_get_current_pid_tgid k = None.
Proof. rewrite probe_ret_SSL_read_target. cbn. apply lookup_delete_eq. Qed.

(** The read-with-count return handler evicts from the read shape's
    map and leaves its own map as it found it. *)
Lemma probe_ret_SSL_read_ex_evicts_read :
  active_ssl_read_args_map (probe_ret_SSL_read_ex TRACE_PID k ctx s) =
  delete (bpf_get_current_pid_tgid k) (active_ssl_read_args_map s).
Proof.
  rewrite probe_ret_SSL_read_ex_target. cbn.
  destruct (active_ssl_readex_buf_len_map s !! bpf_get_current_pid_tgid k); [|reflexivity].
  now destruct (process_SSL_ex_data_frame k ctx (bpf_get_current_pid_tgid k) kSSLRead b s)
    as (-> & _).
Qed.

End Correlation.

Lemma probe_ret_SSL_read_ex_keeps_own_map TRACE_PID k ctx s :
  active_ssl_readex_buf_len_map (probe_ret_SSL_read_ex TRACE_PID k ctx s) =
  active_ssl_readex_buf_len_map s.
Proof.
  unfold probe_ret_SSL_read_ex. destruct (negb _); [reflexivity|]. cbn.
  destruct (hash_lookup _ _); [|reflexivity].
  now destruct (process_SSL_ex_data_frame k ctx (bpf_get_current_pid_tgid k) kSSLRead b s)
    as (_ & _ & -> & _).
Qed.

(** Which handlers leave which correlation map alone. *)
Lemma handler_keeps_write_map TRACE_PID p k ctx s :
  p <> Entry_SSL_write -> p <> Ret_SSL_write ->
  active_ssl_write_args_map (handler TRACE_PID p k ctx s) = active_ssl_write_args_map s.
Proof.
  intros H1 H2. destruct p; try contradiction; cbn;
    [unfold probe_entry_SSL_read | unfold probe_ret_SSL_read
    |unfold probe_entry_SSL_read_ex | unfold probe_ret_SSL_read_ex];
    destruct (negb _); try reflexivity; cbn; try reflexivity.
  - destruct (hash_lookup _ _); [|reflexivity].
    now destruct (process_SSL_data_frame k ctx (bpf_get_current_pid_tgid k) kSSLRead z s)
      as (_ & -> & _).
  - destruct (hash_lookup _ _); [|reflexivity].
    now destruct (process_SSL_ex_data_frame k ctx (bpf_get_current_pid_tgid k) kSSLRead b s)
      as (_ & -> & _).
Qed.

Lemma handler_keeps_readex_map TRACE_PID p k ctx s :
  p <> Entry_SSL_read_ex ->
  active_ssl_readex_buf_len_map (handler TRACE_PID p k ctx s) =
  active_ssl_readex_buf_len_map s.
Proof.
  intros H1. destruct p; try contradiction; cbn;
    try apply probe_ret_SSL_read_ex_keeps_own_map;
    [unfold probe_entry_SSL_write | unfold probe_ret_SSL_write
    |unfold probe_entry_SSL_read | unfold probe_ret_SSL_read];
    destruct (negb _); try reflexivity; cbn; try reflexivity.
  - destruct (hash_lookup _ _); [|reflexivity].
    now destruct (process_SSL_data_frame k ctx (bpf_get_current_pid_tgid k) kSSLWrite z s)
      as (_ & _ & -> & _).
  - destruct (hash_lookup _ _); [|reflexivity].
    now destruct (process_SSL_data_frame k ctx (bpf_get_current_pid_tgid k) kSSLRead z s)
      as (_ & _ & -> & _).
Qed.

Lemma handler_keeps_read_map TRACE_PID p k ctx s :
  p <> Entry_SSL_read -> p <> Ret_SSL_read -> p <> Ret_SSL_read_ex ->
  active_ssl_read_args_map (handler TRACE_PID p k ctx s) = active_ssl_read_args_map s.
Proof.
  intros H1 H2 H3. destruct p; try contradiction; cbn;
    [unfold probe_entry_SSL_write | unfold probe_ret_SSL_write
    |unfold probe_entry_SSL_read_ex];
    destruct (negb _); try reflexivity; cbn; try reflexivity.
  destruct (hash_lookup _ _); [|reflexivity].
  now destruct (process_SSL_data_frame k ctx (bpf_get_current_pid_tgid k) kSSLWrite z s)
    as (-> & _).
Qed.

(** The 16 bytes at [buf_A] are mapped in the scenario's memory. *)
Lemma Scenario_buf_A_mapped a :
  Scenario.buf_A <= a < Scenario.buf_A + 16 -> is_Some (Scenario.mem a).
Proof.
  unfold Scenario.buf_A. intros Ha.
  unfold Scenario.mem, Scenario.overlay, Scenario.region at 1, Scenario.buf_A.
  cbn [length Scenario.bytes_A].
  destruct (Z.leb_spec 4096 a); [|lia].
  destruct (Z.ltb_spec a (4096 + Z.of_nat 16)); [|lia].
  cbn [andb].
  assert (Hi : (Z.to_nat (a - 4096) < 16)%nat) by lia.
  destruct (lookup_lt_is_Some_2 Scenario.bytes_A (Z.to_nat (a - 4096)) Hi) as [b ->].
  eauto.
Qed.

(** ** The claims *)

(** C1. The read-with-count return handler does not clear its own
    correlation map: after [SSL_read_ex] is entered and returns on a
    thread of the target process, [active_ssl_readex_buf_len_map] still
    holds that thread's pending record (the handler's last statement
    deletes from [active_ssl_read_args_map] instead). *)
Theorem read_ex_return_keeps_pending_record :
  let s1 := probe_entry_SSL_read_ex Scenario.target Scenario.on_A
              (Scenario.at_entry Scenario.buf_A Scenario.readbytes_ptr) init_state in
  let s2 := probe_ret_SSL_read_ex Scenario.target Scenario.on_A
              (Scenario.at_return 1) s1 in
  active_ssl_readex_buf_len_map s2 !! Scenario.thread_A =
    Some (mk_buffer Scenario.buf_A Scenario.readbytes_ptr).
Proof.
  cbv zeta. rewrite probe_ret_SSL_read_ex_keeps_own_map.
  rewrite probe_entry_SSL_read_ex_target by reflexivity.
  apply hash_update_lookup_eq. right. vm_compute. reflexivity.
Qed.

(** C2. The read-with-count return handler deletes from the read
    shape's map: with [SSL_read] pending on a thread, a return of
    [SSL_read_ex] on that thread removes the pending read record, and
    the return of [SSL_read] that follows publishes nothing. *)
Theorem read_ex_return_deletes_read_record :
  let s1 := probe_entry_SSL_read Scenario.target Scenario.on_A
              (Scenario.at_entry Scenario.buf_A 0) init_state in
  let s2 := probe_ret_SSL_read_ex Scenario.target Scenario.on_A
              (Scenario.at_return 1) s1 in
  let s3 := probe_ret_SSL_read Scenario.target Scenario.on_A
              (Scenario.at_return 16) s2 in
  active_ssl_read_args_map s1 !! Scenario.thread_A = Some Scenario.buf_A /\
  active_ssl_read_args_map s2 !! Scenario.thread_A = None /\
  tls_events s3 = [].
Proof.
  cbv zeta. split; [|split].
  - vm_compute. reflexivity.
  - rewrite probe_ret_SSL_read_ex_evicts_read by reflexivity.
    apply lookup_delete_eq.
  - rewrite probe_ret_SSL_read_target by reflexivity. cbv zeta.
    rewrite probe_ret_SSL_read_ex_evicts_read by reflexivity.
    change (bpf_get_current_pid_tgid Scenario.on_A) with Scenario.thread_A.
    rewrite lookup_delete_eq. reflexivity.
Qed.

(** C3. For a non-negative length [L] both materializers publish one
    record whose [data_len] is [min L MAX_DATA_SIZE]: below
    [MAX_DATA_SIZE] the mask [L & (MAX_DATA_SIZE - 1)] is the identity,
    and from [MAX_DATA_SIZE] on the result is [MAX_DATA_SIZE].  For
    [process_SSL_data], [L] is the return value as an [int]; for
    [process_SSL_ex_data] it is the pointee of the length pointer as an
    [int], the return status being non-zero. *)
Theorem data_len_is_min (k : kernel) (ctx : pt_regs) (id : Z)
    (ty : ssl_data_event_type) (s : bpf_state) (L : Z) :
  0 <= L ->
  (L < MAX_DATA_SIZE -> Z.land L (MAX_DATA_SIZE - 1) = L) /\
  (forall buf, to_int (PT_REGS_RC ctx) = L ->
     exists e,
       tls_events (process_SSL_data k ctx id ty buf s) = tls_events s ++ [e] /\
       data_len e = Z.min L MAX_DATA_SIZE) /\
  (forall _buf, to_int (PT_REGS_RC ctx) <> 0 ->
     to_int (load_size_t (user_mem k) (len _buf)) = L ->
     exists e,
       tls_events (process_SSL_ex_data k ctx id ty _buf s) = tls_events s ++ [e] /\
       data_len e = Z.min L MAX_DATA_SIZE).
Proof.
  intros HL. split; [|split].
  - intros Hlt. rewrite MAX_DATA_SIZE_pow2 in *. apply land_ones_small; lia.
  - intros buf <-. eexists. split; [now apply process_SSL_data_events|].
    cbn [data_len materialized]. now apply clamp_MAX_min.
  - intros _buf Hnz <-. eexists. split; [now apply process_SSL_ex_data_events|].
    cbn [data_len materialized]. now apply clamp_MAX_min.
Qed.

(** A return value of 5000 is published with [data_len] 4096. *)
Lemma data_len_is_min_witness :
  0 <= 5000 /\
  exists e,
    tls_events (process_SSL_data Scenario.on_A (Scenario.at_return 5000) Scenario.thread_A
                  kSSLWrite Scenario.buf_A init_state) = tls_events init_state ++ [e] /\
    data_len e = Z.min 5000 MAX_DATA_SIZE.
Proof.
  assert (H : 0 <= 5000) by lia.
  split; [exact H|].
  exact (proj1 (proj2 (data_len_is_min Scenario.on_A (Scenario.at_return 5000)
           Scenario.thread_A kSSLWrite init_state 5000 H)) Scenario.buf_A eq_refl).
Defined.

(** C6. Whatever handlers ran before, a handler fired by a thread whose
    process id (the upper 32 bits of its identity) is not [TRACE_PID]
    returns the maps exactly as it found them: no correlation entry is
    inserted and no event is published. *)
Theorem non_target_is_noop (TRACE_PID : Z) (tr : list invocation) (s0 : bpf_state)
    (p : probe) (k : kernel) (ctx : pt_regs) :
  pid_of k <> TRACE_PID ->
  handler TRACE_PID p k ctx (run TRACE_PID tr s0) = run TRACE_PID tr s0.
Proof. apply handler_filtered. Qed.

(** A thread of process 77 enters [SSL_write] while 1234 is traced. *)
Lemma non_target_is_noop_witness :
  pid_of Scenario.on_stranger <> Scenario.target /\
  handler Scenario.target Entry_SSL_write Scenario.on_stranger
    (Scenario.at_entry Scenario.buf_B 0)
    (run Scenario.target
       [mk_invocation Entry_SSL_write Scenario.on_A (Scenario.at_entry Scenario.buf_A 0)]
       init_state) =
  run Scenario.target
    [mk_invocation Entry_SSL_write Scenario.on_A (Scenario.at_entry Scenario.buf_A 0)]
    init_state.
Proof.
  assert (H : pid_of Scenario.on_stranger <> Scenario.target)
    by (vm_compute; discriminate).
  split; [exact H|].
  exact (non_target_is_noop Scenario.target _ init_state Entry_SSL_write
           Scenario.on_stranger (Scenario.at_entry Scenario.buf_B 0) H).
Defined.

(** C7. With the length-return convention a negative return value makes
    [process_SSL_data] return at once: the maps, the scratch slot and
    [tls_events] are what they were, so the write and read return
    handlers publish nothing and leave every scratch slot untouched. *)
Theorem negative_length_no_event (TRACE_PID : Z) (k : kernel) (ctx : pt_regs)
    (id : Z) (ty : ssl_data_event_type) (buf : Z) (s : bpf_state) :
  to_int (PT_REGS_RC ctx) < 0 ->
  process_SSL_data k ctx id ty buf s = s /\
  tls_events (probe_ret_SSL_write TRACE_PID k ctx s) = tls_events s /\
  data_buffer_heap (probe_ret_SSL_write TRACE_PID k ctx s) = data_buffer_heap s /\
  tls_events (probe_ret_SSL_read TRACE_PID k ctx s) = tls_events s /\
  data_buffer_heap (probe_ret_SSL_read TRACE_PID k ctx s) = data_buffer_heap s.
Proof.
  intros Hneg. split; [now apply process_SSL_data_failed|].
  unfold probe_ret_SSL_write, probe_ret_SSL_read.
  destruct (negb _); [tauto|].
  destruct (hash_lookup (active_ssl_write_args_map s) _);
    destruct (hash_lookup (active_ssl_read_args_map s) _);
    rewrite ?process_SSL_data_failed by assumption; cbn; tauto.
Qed.

(** [SSL_write] returning -1 on thread A. *)
Lemma negative_length_no_event_witness :
  to_int (PT_REGS_RC (Scenario.at_return (2 ^ 32 - 1))) < 0 /\
  tls_events
    (probe_ret_SSL_write Scenario.target Scenario.on_A (Scenario.at_return (2 ^ 32 - 1))
       (probe_entry_SSL_write Scenario.target Scenario.on_A
          (Scenario.at_entry Scenario.buf_A 0) init_state)) = [].
Proof.
  assert (H : to_int (PT_REGS_RC (Scenario.at_return (2 ^ 32 - 1))) < 0)
    by (vm_compute; reflexivity).
  split; [exact H|].
  exact (proj1 (proj2 (negative_length_no_event Scenario.target Scenario.on_A
           (Scenario.at_return (2 ^ 32 - 1)) 0 kSSLWrite 0
           (probe_entry_SSL_write Scenario.target Scenario.on_A
              (Scenario.at_entry Scenario.buf_A 0) init_state) H))).
Defined.

(** C9. Every record published along any sequence of handler
    invocations has [0 <= data_len <= MAX_DATA_SIZE]; and when, on the
    read-with-count path, the pointee of the length pointer is negative
    as an [int], the mask maps it into [0, MAX_DATA_SIZE - 1]. *)
Theorem published_data_len_in_range (TRACE_PID : Z) (tr : list invocation)
    (s : bpf_state) :
  (exists new,
     tls_events (run TRACE_PID tr s) = tls_events s ++ new /\
     Forall data_len_in_range new) /\
  (forall k ctx id ty _buf,
     to_int (PT_REGS_RC ctx) <> 0 ->
     to_int (load_size_t (user_mem k) (len _buf)) < 0 ->
     exists e,
       tls_events (process_SSL_ex_data k ctx id ty _buf s) = tls_events s ++ [e] /\
       0 <= data_len e <= MAX_DATA_SIZE - 1).
Proof.
  split; [apply run_appends|].
  intros k ctx id ty _buf Hnz Hneg.
  eexists. split; [now apply process_SSL_ex_data_events|].
  cbn [data_len materialized].
  pose proof (clamp_pow2_neg 12 _ ltac:(lia) Hneg) as Hr.
  rewrite MAX_DATA_SIZE_pow2. lia.
Qed.

(** [SSL_read_ex] whose length pointee is [SIZE_MAX], that is -1 as an
    [int]. *)
Lemma published_data_len_in_range_witness :
  to_int (PT_REGS_RC (Scenario.at_return 1)) <> 0 /\
  to_int (load_size_t Scenario.mem Scenario.huge_ptr) < 0 /\
  exists e,
    tls_events
      (process_SSL_ex_data Scenario.on_A (Scenario.at_return 1) Scenario.thread_A kSSLRead
         (mk_buffer Scenario.buf_A Scenario.huge_ptr) init_state) =
    tls_events init_state ++ [e] /\
    0 <= data_len e <= MAX_DATA_SIZE - 1.
Proof.
  assert (H1 : to_int (PT_REGS_RC (Scenario.at_return 1)) <> 0)
    by (vm_compute; discriminate).
  assert (H2 : to_int (load_size_t Scenario.mem Scenario.huge_ptr) < 0)
    by (vm_compute; reflexivity).
  split; [exact H1|]. split; [exact H2|].
  exact (proj2 (published_data_len_in_range Scenario.target [] init_state)
           Scenario.on_A (Scenario.at_return 1) Scenario.thread_A kSSLRead
           (mk_buffer Scenario.buf_A Scenario.huge_ptr) H1 H2).
Defined.

(** ** What a materialized record holds *)

Lemma materialized_length k id ty src l old :
  length (data old) = Z.to_nat MAX_DATA_SIZE ->
  length (data (materialized k id ty src l old)) = Z.to_nat MAX_DATA_SIZE.
Proof.
  intros Hold. cbn [data materialized].
  rewrite bpf_probe_read_length; [assumption|].
  rewrite to_u32_clamp, Hold. pose proof (clamp_MAX_range l). lia.
Qed.

Lemma materialized_tail k id ty src l old :
  let e := materialized k id ty src l old in
  drop (Z.to_nat (data_len e)) (data e) = drop (Z.to_nat (data_len e)) (data old).
Proof.
  cbn [data data_len materialized].
  rewrite <- (to_u32_clamp l) at 1 3. apply bpf_probe_read_drop.
Qed.

(** When the [data_len] bytes at [src] are mapped, they are the front
    of the payload. *)
Lemma materialized_payload k id ty src l old :
  let e := materialized k id ty src l old in
  (forall a, src <= a < src + data_len e -> is_Some (user_mem k a)) ->
  forall i : nat, (i < Z.to_nat (data_len e))%nat ->
    data e !! i = user_mem k (src + Z.of_nat i).
Proof.
  cbn [data data_len materialized]. intros Hmapped i Hi.
  pose proof (clamp_MAX_range l) as Hr.
  destruct (read_bytes_mapped (user_mem k) (Z.to_nat (clamp MAX_DATA_SIZE l)) src)
    as [bs Hbs].
  { intros a Ha. apply Hmapped. lia. }
  unfold bpf_probe_read. rewrite to_u32_clamp, Hbs.
  rewrite lookup_app_l by (rewrite (read_bytes_length _ _ _ _ Hbs); lia).
  symmetry. now apply (read_bytes_lookup _ _ _ _ _ Hbs).
Qed.

(** The record depends on memory only through the [data_len] bytes at
    [src]. *)
Lemma materialized_agree k m' id ty src l old :
  agree_on (user_mem k) m' src (Z.to_nat (clamp MAX_DATA_SIZE l)) ->
  materialized (with_mem m' k) id ty src l old = materialized k id ty src l old.
Proof.
  intros Hag. unfold materialized. cbn [with_mem bpf_ktime_get_ns user_mem].
  f_equal. symmetry. apply bpf_probe_read_agree. now rewrite to_u32_clamp.
Qed.

Lemma load_size_t_agree m m' p :
  agree_on m m' p 8 -> load_size_t m p = load_size_t m' p.
Proof. intros Hag. unfold load_size_t. now rewrite (read_bytes_agree m m'). Qed.

Lemma process_SSL_data_wf k ctx id ty buf s :
  wf_state s -> wf_state (process_SSL_data k ctx id ty buf s).
Proof.
  intros Hwf cpu.
  destruct (Z.lt_ge_cases (to_int (PT_REGS_RC ctx)) 0) as [Hneg|Hpos].
  - rewrite process_SSL_data_failed by assumption. apply Hwf.
  - destruct (Nat.eq_dec cpu (smp_processor_id k)) as [->|Hne].
    + change (data_buffer_heap ?s (smp_processor_id k)) with (event_slot k s).
      rewrite process_SSL_data_slot by assumption.
      apply materialized_length, Hwf.
    + destruct (process_SSL_data_frame k ctx id ty buf s) as (_ & _ & _ & _ & Hcpu).
      rewrite Hcpu by assumption. apply Hwf.
Qed.

Lemma process_SSL_ex_data_wf k ctx id ty _buf s :
  wf_state s -> wf_state (process_SSL_ex_data k ctx id ty _buf s).
Proof.
  intros Hwf cpu.
  destruct (Z.eq_dec (to_int (PT_REGS_RC ctx)) 0) as [Hz|Hnz].
  - rewrite process_SSL_ex_data_failed by assumption. apply Hwf.
  - destruct (Nat.eq_dec cpu (smp_processor_id k)) as [->|Hne].
    + change (data_buffer_heap ?s (smp_processor_id k)) with (event_slot k s).
      rewrite process_SSL_ex_data_slot by assumption.
      apply materialized_length, Hwf.
    + destruct (process_SSL_ex_data_frame k ctx id ty _buf s) as (_ & _ & _ & _ & Hcpu).
      rewrite Hcpu by assumption. apply Hwf.
Qed.

Lemma init_state_wf : wf_state init_state.
Proof. intros cpu. reflexivity. Qed.

Lemma process_SSL_data_agree k m' ctx id ty buf s :
  agree_on (user_mem k) m' buf
    (Z.to_nat (clamp MAX_DATA_SIZE (to_int (PT_REGS_RC ctx)))) ->
  state_eq (process_SSL_data (with_mem m' k) ctx id ty buf s)
           (process_SSL_data k ctx id ty buf s).
Proof.
  intros Hag.
  destruct (Z.lt_ge_cases (to_int (PT_REGS_RC ctx)) 0) as [Hneg|Hpos].
  { rewrite !process_SSL_data_failed by assumption. repeat split. }
  destruct (process_SSL_data_frame k ctx id ty buf s) as (R & W & X & A & D).
  destruct (process_SSL_data_frame (with_mem m' k) ctx id ty buf s)
    as (R' & W' & X' & A' & D').
  unfold state_eq. rewrite R, W, X, A, R', W', X', A'.
  repeat split.
  - intros cpu. destruct (Nat.eq_dec cpu (smp_processor_id k)) as [->|Hne].
    + change (data_buffer_heap ?s (smp_processor_id k)) with (event_slot k s) at 2.
      change (data_buffer_heap ?s (smp_processor_id k))
        with (event_slot (with_mem m' k) s).
      rewrite !process_SSL_data_slot by assumption.
      now apply materialized_agree.
    + rewrite D, D' by assumption. reflexivity.
  - rewrite !process_SSL_data_events by assumption.
    change (event_slot (with_mem m' k) s) with (event_slot k s).
    now rewrite materialized_agree.
Qed.

Lemma process_SSL_ex_data_agree k m' ctx id ty _buf s :
  agree_on (user_mem k) m' (len _buf) 8 ->
  agree_on (user_mem k) m' (content _buf)
    (Z.to_nat (clamp MAX_DATA_SIZE (to_int (load_size_t (user_mem k) (len _buf))))) ->
  state_eq (process_SSL_ex_data (with_mem m' k) ctx id ty _buf s)
           (process_SSL_ex_data k ctx id ty _buf s).
Proof.
  intros Hlen Hag.
  destruct (Z.eq_dec (to_int (PT_REGS_RC ctx)) 0) as [Hz|Hnz].
  { rewrite !process_SSL_ex_data_failed by assumption. repeat split. }
  destruct (process_SSL_ex_data_frame k ctx id ty _buf s) as (R & W & X & A & D).
  destruct (process_SSL_ex_data_frame (with_mem m' k) ctx id ty _buf s)
    as (R' & W' & X' & A' & D').
  assert (Hload : load_size_t (user_mem (with_mem m' k)) (len _buf) =
                  load_size_t (user_mem k) (len _buf))
    by (symmetry; now apply load_size_t_agree).
  unfold state_eq. rewrite R, W, X, A, R', W', X', A'.
  repeat split.
  - intros cpu. destruct (Nat.eq_dec cpu (smp_processor_id k)) as [->|Hne].
    + change (data_buffer_heap ?s (smp_processor_id k)) with (event_slot k s) at 2.
      change (data_buffer_heap ?s (smp_processor_id k))
        with (event_slot (with_mem m' k) s).
      rewrite !process_SSL_ex_data_slot by assumption.
      rewrite Hload. now apply materialized_agree.
    + rewrite D, D' by assumption. reflexivity.
  - rewrite !process_SSL_ex_data_events by assumption.
    change (event_slot (with_mem m' k) s) with (event_slot k s).
    rewrite Hload. now rewrite materialized_agree.
Qed.

(** C4. The payload copy stays in bounds on both sides.  The size
    handed to [bpf_probe_read] is the clamped [data_len], which fits
    the payload region, so every processor's payload region keeps its
    capacity of [MAX_DATA_SIZE] bytes; and the outcome depends on user
    memory only through the [data_len] bytes at the captured buffer
    pointer (and, for [process_SSL_ex_data], the [size_t] at the length
    pointer): changing or unmapping any other address changes nothing.
    When those [data_len] bytes are mapped they are the payload. *)
Theorem payload_copy_in_bounds (k : kernel) (ctx : pt_regs) (id : Z)
    (ty : ssl_data_event_type) (s : bpf_state) :
  wf_state s ->
  (forall buf,
     let n := clamp MAX_DATA_SIZE (to_int (PT_REGS_RC ctx)) in
     let s' := process_SSL_data k ctx id ty buf s in
     0 <= n <= MAX_DATA_SIZE /\
     wf_state s' /\
     (forall m', agree_on (user_mem k) m' buf (Z.to_nat n) ->
        state_eq (process_SSL_data (with_mem m' k) ctx id ty buf s) s') /\
     (0 <= to_int (PT_REGS_RC ctx) ->
      (forall a, buf <= a < buf + n -> is_Some (user_mem k a)) ->
      forall i : nat, (i < Z.to_nat n)%nat ->
        data (event_slot k s') !! i = user_mem k (buf + Z.of_nat i))) /\
  (forall _buf,
     let n := clamp MAX_DATA_SIZE (to_int (load_size_t (user_mem k) (len _buf))) in
     let s' := process_SSL_ex_data k ctx id ty _buf s in
     0 <= n <= MAX_DATA_SIZE /\
     wf_state s' /\
     (forall m', agree_on (user_mem k) m' (len _buf) 8 ->
        agree_on (user_mem k) m' (content _buf) (Z.to_nat n) ->
        state_eq (process_SSL_ex_data (with_mem m' k) ctx id ty _buf s) s') /\
     (to_int (PT_REGS_RC ctx) <> 0 ->
      (forall a, content _buf <= a < content _buf + n -> is_Some (user_mem k a)) ->
      forall i : nat, (i < Z.to_nat n)%nat ->
        data (event_slot k s') !! i = user_mem k (content _buf + Z.of_nat i))).
Proof.
  intros Hwf. split.
  - intros buf n s'. split; [apply clamp_MAX_range|].
    split; [now apply process_SSL_data_wf|].
    split; [intros m'; apply process_SSL_data_agree|].
    intros Hpos Hmapped i Hi. subst s'.
    rewrite process_SSL_data_slot by assumption.
    now apply materialized_payload.
  - intros _buf n s'. split; [apply clamp_MAX_range|].
    split; [now apply process_SSL_ex_data_wf|].
    split; [intros m'; apply process_SSL_ex_data_agree|].
    intros Hnz Hmapped i Hi. subst s'.
    rewrite process_SSL_ex_data_slot by assumption.
    now apply materialized_payload.
Qed.

(** A 16-byte write from [buf_A]: the outcome is the same in a memory
    where only those 16 bytes are mapped. *)
Lemma payload_copy_in_bounds_witness :
  wf_state init_state /\
  wf_state (process_SSL_data Scenario.on_A (Scenario.at_return 16) Scenario.thread_A
              kSSLWrite Scenario.buf_A init_state) /\
  state_eq
    (process_SSL_data (with_mem (Scenario.region Scenario.buf_A Scenario.bytes_A) Scenario.on_A)
       (Scenario.at_return 16) Scenario.thread_A kSSLWrite Scenario.buf_A init_state)
    (process_SSL_data Scenario.on_A (Scenario.at_return 16) Scenario.thread_A
       kSSLWrite Scenario.buf_A init_state).
Proof.
  pose proof (proj1 (payload_copy_in_bounds Scenario.on_A (Scenario.at_return 16)
                       Scenario.thread_A kSSLWrite init_state init_state_wf)
                Scenario.buf_A) as (_ & Hwf & Hag & _).
  split; [exact init_state_wf|]. split; [exact Hwf|].
  apply Hag. intros a Ha.
  change (Z.of_nat (Z.to_nat
            (clamp MAX_DATA_SIZE (to_int (PT_REGS_RC (Scenario.at_return 16))))))
    with 16 in Ha.
  unfold Scenario.on_A, Scenario.mem, Scenario.overlay, Scenario.region, Scenario.buf_A in *.
  cbn [user_mem length Scenario.bytes_A].
  destruct (Z.leb_spec 4096 a); [|lia].
  destruct (Z.ltb_spec a (4096 + Z.of_nat 16)); [|lia].
  cbn [andb].
  assert (Hi : (Z.to_nat (a - 4096) < 16)%nat) by lia.
  destruct (lookup_lt_is_Some_2 Scenario.bytes_A (Z.to_nat (a - 4096)) Hi) as [b ->].
  reflexivity.
Defined.

(** C5. At a return of [SSL_read_ex]: a zero status publishes nothing,
    whatever the length pointer points to; a non-zero status on a
    thread of the target process with a pending record publishes
    exactly one record, of kind read, whose [data_len] is the clamp of
    the [int] read from the pointee of the captured length pointer (its
    minimum with [MAX_DATA_SIZE] when that [int] is non-negative) and
    whose first [data_len] payload bytes are the bytes at the captured
    buffer pointer, those being mapped. *)
Theorem read_ex_return_event (TRACE_PID : Z) (k : kernel) (ctx : pt_regs)
    (s : bpf_state) :
  (to_int (PT_REGS_RC ctx) = 0 ->
   tls_events (probe_ret_SSL_read_ex TRACE_PID k ctx s) = tls_events s) /\
  (forall _buf,
     pid_of k = TRACE_PID ->
     active_ssl_readex_buf_len_map s !! bpf_get_current_pid_tgid k = Some _buf ->
     to_int (PT_REGS_RC ctx) <> 0 ->
     let L := to_int (load_size_t (user_mem k) (len _buf)) in
     exists e,
       tls_events (probe_ret_SSL_read_ex TRACE_PID k ctx s) = tls_events s ++ [e] /\
       type e = kSSLRead /\
       data_len e = clamp MAX_DATA_SIZE L /\
       (0 <= L -> data_len e = Z.min L MAX_DATA_SIZE) /\
       ((forall a, content _buf <= a < content _buf + data_len e ->
           is_Some (user_mem k a)) ->
        forall i : nat, (i < Z.to_nat (data_len e))%nat ->
          data e !! i = user_mem k (content _buf + Z.of_nat i))).
Proof.
  split.
  - intros Hz. unfold probe_ret_SSL_read_ex. destruct (negb _); [reflexivity|].
    destruct (hash_lookup _ _); [|reflexivity].
    now rewrite process_SSL_ex_data_failed.
  - intros _buf Hpid Hpending Hnz L.
    rewrite probe_ret_SSL_read_ex_target by assumption. cbv zeta.
    rewrite Hpending. cbn [tls_events set_read_args_map].
    rewrite process_SSL_ex_data_events by assumption.
    eexists. split; [reflexivity|].
    split; [reflexivity|]. split; [reflexivity|].
    split; [intros HL; now apply clamp_MAX_min|].
    apply materialized_payload.
Qed.

(** [SSL_read_ex] on thread A with [*readbytes = 10]: status 0
    publishes nothing, status 1 publishes one read record of length 10. *)
Lemma read_ex_return_event_witness :
  let s1 := probe_entry_SSL_read_ex Scenario.target Scenario.on_A
              (Scenario.at_entry Scenario.buf_A Scenario.readbytes_ptr) init_state in
  (to_int (PT_REGS_RC (Scenario.at_return 0)) = 0 /\
   tls_events (probe_ret_SSL_read_ex Scenario.target Scenario.on_A
                 (Scenario.at_return 0) s1) = []) /\
  (pid_of Scenario.on_A = Scenario.target /\
   active_ssl_readex_buf_len_map s1 !! Scenario.thread_A =
     Some (mk_buffer Scenario.buf_A Scenario.readbytes_ptr) /\
   to_int (PT_REGS_RC (Scenario.at_return 1)) <> 0 /\
   (forall a, Scenario.buf_A <= a < Scenario.buf_A + 10 ->
      is_Some (Scenario.mem a)) /\
   exists e,
     tls_events (probe_ret_SSL_read_ex Scenario.target Scenario.on_A
                   (Scenario.at_return 1) s1) = [e] /\
     type e = kSSLRead /\ data_len e = 10 /\
     forall i : nat, (i < 10)%nat ->
       data e !! i = Scenario.mem (Scenario.buf_A + Z.of_nat i)).
Proof.
  intros s1.
  assert (H0 : to_int (PT_REGS_RC (Scenario.at_return 0)) = 0) by reflexivity.
  assert (Hpid : pid_of Scenario.on_A = Scenario.target) by reflexivity.
  assert (Hpending : active_ssl_readex_buf_len_map s1 !! Scenario.thread_A =
                     Some (mk_buffer Scenario.buf_A Scenario.readbytes_ptr))
    by (vm_compute; reflexivity).
  assert (H1 : to_int (PT_REGS_RC (Scenario.at_return 1)) <> 0)
    by (vm_compute; discriminate).
  split.
  - split; [exact H0|].
    exact (proj1 (read_ex_return_event Scenario.target Scenario.on_A
                    (Scenario.at_return 0) s1) H0).
  - assert (Hmapped : forall a, Scenario.buf_A <= a < Scenario.buf_A + 10 ->
                               is_Some (Scenario.mem a)).
    { intros a Ha. apply Scenario_buf_A_mapped. lia. }
    split; [exact Hpid|]. split; [exact Hpending|]. split; [exact H1|].
    split; [exact Hmapped|].
    destruct (proj2 (read_ex_return_event Scenario.target Scenario.on_A
                       (Scenario.at_return 1) s1) _ Hpid Hpending H1)
      as (e & He & Hty & Hlen & _ & Hpay).
    assert (Hlen10 : data_len e = 10) by (rewrite Hlen; vm_compute; reflexivity).
    rewrite Hlen10 in Hpay.
    exists e. split; [exact He|]. split; [exact Hty|]. split; [exact Hlen10|].
    intros i Hi. apply (Hpay Hmapped). lia.
Defined.

(** C8. Thread A enters [SSL_write], then thread B enters [SSL_write],
    then thread A returns with a non-negative length: the record
    published at A's return is materialized from the buffer pointer A
    passed at its entry, whatever B passed.  (A's entry is recorded
    because its key is present already or the table has room.)  The
    same holds for [SSL_read], and for [SSL_read_ex] with a non-zero
    status, where the length pointer is A's as well. *)
Theorem interleaved_threads_own_buffer (TRACE_PID : Z) (kA kB kR : kernel)
    (ctxA ctxB ctxR : pt_regs) (s : bpf_state) :
  let idA := bpf_get_current_pid_tgid kA in
  bpf_get_current_pid_tgid kB <> idA ->
  bpf_get_current_pid_tgid kR = idA ->
  pid_of kA = TRACE_PID ->
  (is_Some (active_ssl_write_args_map s !! idA) \/
     Z.of_nat (size (active_ssl_write_args_map s)) < hash_max_entries ->
   0 <= to_int (PT_REGS_RC ctxR) ->
   tls_events
     (probe_ret_SSL_write TRACE_PID kR ctxR
        (probe_entry_SSL_write TRACE_PID kB ctxB
           (probe_entry_SSL_write TRACE_PID kA ctxA s))) =
   tls_events s ++
     [materialized kR idA kSSLWrite (PT_REGS_PARM2 ctxA)
        (to_int (PT_REGS_RC ctxR)) (event_slot kR s)]) /\
  (is_Some (active_ssl_read_args_map s !! idA) \/
     Z.of_nat (size (active_ssl_read_args_map s)) < hash_max_entries ->
   0 <= to_int (PT_REGS_RC ctxR) ->
   tls_events
     (probe_ret_SSL_read TRACE_PID kR ctxR
        (probe_entry_SSL_read TRACE_PID kB ctxB
           (probe_entry_SSL_read TRACE_PID kA ctxA s))) =
   tls_events s ++
     [materialized kR idA kSSLRead (PT_REGS_PARM2 ctxA)
        (to_int (PT_REGS_RC ctxR)) (event_slot kR s)]) /\
  (is_Some (active_ssl_readex_buf_len_map s !! idA) \/
     Z.of_nat (size (active_ssl_readex_buf_len_map s)) < hash_max_entries ->
   to_int (PT_REGS_RC ctxR) <> 0 ->
   tls_events
     (probe_ret_SSL_read_ex TRACE_PID kR ctxR
        (probe_entry_SSL_read_ex TRACE_PID kB ctxB
           (probe_entry_SSL_read_ex TRACE_PID kA ctxA s))) =
   tls_events s ++
     [materialized kR idA kSSLRead (PT_REGS_PARM2 ctxA)
        (to_int (load_size_t (user_mem kR) (PT_REGS_PARM4 ctxA)))
        (event_slot kR s)]).
Proof.
  intros idA HneB HidR HpidA.
  assert (HpidR : pid_of kR = TRACE_PID)
    by (unfold pid_of in *; now rewrite HidR).
  split; [|split]; intros Hroom Hok.
  - rewrite probe_ret_SSL_write_target by assumption. cbv zeta. rewrite HidR.
    set (s1 := probe_entry_SSL_write TRACE_PID kA ctxA s).
    set (s2 := probe_entry_SSL_write TRACE_PID kB ctxB s1).
    assert (E1 : active_ssl_write_args_map s1 !! idA = Some (PT_REGS_PARM2 ctxA)).
    { subst s1. rewrite probe_entry_SSL_write_target by assumption. cbn.
      now apply hash_update_lookup_eq. }
    assert (E2 : active_ssl_write_args_map s2 !! idA = Some (PT_REGS_PARM2 ctxA)).
    { subst s2. unfold probe_entry_SSL_write at 1. destruct (negb _); [exact E1|].
      cbn. rewrite hash_update_lookup_ne by (intros E; now apply HneB). exact E1. }
    assert (F2 : tls_events s2 = tls_events s /\ event_slot kR s2 = event_slot kR s).
    { subst s2 s1. unfold probe_entry_SSL_write.
      do 2 destruct (negb _); split; reflexivity. }
    rewrite E2. cbn [tls_events set_write_args_map].
    rewrite process_SSL_data_events by assumption.
    destruct F2 as [-> ->]. reflexivity.
  - rewrite probe_ret_SSL_read_target by assumption. cbv zeta. rewrite HidR.
    set (s1 := probe_entry_SSL_read TRACE_PID kA ctxA s).
    set (s2 := probe_entry_SSL_read TRACE_PID kB ctxB s1).
    assert (E1 : active_ssl_read_args_map s1 !! idA = Some (PT_REGS_PARM2 ctxA)).
    { subst s1. rewrite probe_entry_SSL_read_target by assumption. cbn.
      now apply hash_update_lookup_eq. }
    assert (E2 : active_ssl_read_args_map s2 !! idA = Some (PT_REGS_PARM2 ctxA)).
    { subst s2. unfold probe_entry_SSL_read at 1. destruct (negb _); [exact E1|].
      cbn. rewrite hash_update_lookup_ne by (intros E; now apply HneB). exact E1. }
    assert (F2 : tls_events s2 = tls_events s /\ event_slot kR s2 = event_slot kR s).
    { subst s2 s1. unfold probe_entry_SSL_read.
      do 2 destruct (negb _); split; reflexivity. }
    rewrite E2. cbn [tls_events set_read_args_map].
    rewrite process_SSL_data_events by assumption.
    destruct F2 as [-> ->]. reflexivity.
  - rewrite probe_ret_SSL_read_ex_target by assumption. cbv zeta. rewrite HidR.
    set (s1 := probe_entry_SSL_read_ex TRACE_PID kA ctxA s).
    set (s2 := probe_entry_SSL_read_ex TRACE_PID kB ctxB s1).
    assert (E1 : active_ssl_readex_buf_len_map s1 !! idA =
                 Some (mk_buffer (PT_REGS_PARM2 ctxA) (PT_REGS_PARM4 ctxA))).
    { subst s1. rewrite probe_entry_SSL_read_ex_target by assumption.
      now apply hash_update_lookup_eq. }
    assert (E2 : active_ssl_readex_buf_len_map s2 !! idA =
                 Some (mk_buffer (PT_REGS_PARM2 ctxA) (PT_REGS_PARM4 ctxA))).
    { subst s2. unfold probe_entry_SSL_read_ex at 1. destruct (negb _); [exact E1|].
      cbn. rewrite hash_update_lookup_ne by (intros E; now apply HneB). exact E1. }
    assert (F2 : tls_events s2 = tls_events s /\ event_slot kR s2 = event_slot kR s).
    { subst s2 s1. unfold probe_entry_SSL_read_ex.
      do 2 destruct (negb _); split; reflexivity. }
    rewrite E2. cbn [tls_events set_read_args_map].
    rewrite process_SSL_ex_data_events by assumption.
    destruct F2 as [-> ->]. reflexivity.
Qed.

(** Threads A and B of the target process interleave two writes. *)
Lemma interleaved_threads_own_buffer_witness :
  bpf_get_current_pid_tgid Scenario.on_B <> bpf_get_current_pid_tgid Scenario.on_A /\
  pid_of Scenario.on_A = Scenario.target /\
  Z.of_nat (size (active_ssl_write_args_map init_state)) < hash_max_entries /\
  0 <= to_int (PT_REGS_RC (Scenario.at_return 16)) /\
  tls_events
    (probe_ret_SSL_write Scenario.target Scenario.on_A (Scenario.at_return 16)
       (probe_entry_SSL_write Scenario.target Scenario.on_B
          (Scenario.at_entry Scenario.buf_B 0)
          (probe_entry_SSL_write Scenario.target Scenario.on_A
             (Scenario.at_entry Scenario.buf_A 0) init_state))) =
  tls_events init_state ++
    [materialized Scenario.on_A Scenario.thread_A kSSLWrite Scenario.buf_A 16 zero_event].
Proof.
  assert (Hne : bpf_get_current_pid_tgid Scenario.on_B <>
                bpf_get_current_pid_tgid Scenario.on_A)
    by (vm_compute; discriminate).
  assert (Hpid : pid_of Scenario.on_A = Scenario.target) by reflexivity.
  assert (Hroom : Z.of_nat (size (active_ssl_write_args_map init_state)) <
                  hash_max_entries)
    by (vm_compute; reflexivity).
  assert (Hok : 0 <= to_int (PT_REGS_RC (Scenario.at_return 16)))
    by (vm_compute; discriminate).
  split; [exact Hne|]. split; [exact Hpid|]. split; [exact Hroom|].
  split; [exact Hok|].
  exact (proj1 (interleaved_threads_own_buffer Scenario.target
                  Scenario.on_A Scenario.on_B Scenario.on_A
                  (Scenario.at_entry Scenario.buf_A 0) (Scenario.at_entry Scenario.buf_B 0)
                  (Scenario.at_return 16) init_state Hne eq_refl Hpid)
           (or_intror Hroom) Hok).
Defined.

(** C10. A publish hands over the whole record in the scratch slot,
    payload region of [MAX_DATA_SIZE] bytes included, while
    materialization writes only the first [data_len] payload bytes:
    from offset [data_len] on, the published payload is what the slot
    of that processor held before.  So after a 16-byte write by one
    thread, the record published for a 2-byte write by another thread
    on the same processor carries bytes 2..15 of the first thread's
    data behind its own two. *)
Theorem payload_tail_is_stale :
  (forall k ctx id ty buf s,
     0 <= to_int (PT_REGS_RC ctx) ->
     exists e,
       tls_events (process_SSL_data k ctx id ty buf s) = tls_events s ++ [e] /\
       e = event_slot k (process_SSL_data k ctx id ty buf s) /\
       (wf_state s -> length (data e) = Z.to_nat MAX_DATA_SIZE) /\
       drop (Z.to_nat (data_len e)) (data e) =
       drop (Z.to_nat (data_len e)) (data (event_slot k s))) /\
  (forall k ctx id ty _buf s,
     to_int (PT_REGS_RC ctx) <> 0 ->
     exists e,
       tls_events (process_SSL_ex_data k ctx id ty _buf s) = tls_events s ++ [e] /\
       e = event_slot k (process_SSL_ex_data k ctx id ty _buf s) /\
       (wf_state s -> length (data e) = Z.to_nat MAX_DATA_SIZE) /\
       drop (Z.to_nat (data_len e)) (data e) =
       drop (Z.to_nat (data_len e)) (data (event_slot k s))) /\
  (exists e1 e2,
     tls_events
       (run Scenario.target
          [mk_invocation Entry_SSL_write Scenario.on_A (Scenario.at_entry Scenario.buf_A 0);
           mk_invocation Ret_SSL_write Scenario.on_A (Scenario.at_return 16);
           mk_invocation Entry_SSL_write Scenario.on_B (Scenario.at_entry Scenario.buf_B 0);
           mk_invocation Ret_SSL_write Scenario.on_B (Scenario.at_return 2)]
          init_state) = [e1; e2] /\
     data_len e2 = 2 /\
     take 16 (data e2) = Scenario.bytes_B ++ drop 2 Scenario.bytes_A).
Proof.
  split; [|split].
  - intros k ctx id ty buf s Hpos. eexists.
    split; [now apply process_SSL_data_events|].
    split; [symmetry; now apply process_SSL_data_slot|].
    split; [intros Hwf; apply materialized_length, Hwf|].
    apply materialized_tail.
  - intros k ctx id ty _buf s Hnz. eexists.
    split; [now apply process_SSL_ex_data_events|].
    split; [symmetry; now apply process_SSL_ex_data_slot|].
    split; [intros Hwf; apply materialized_length, Hwf|].
    apply materialized_tail.
  - eexists _, _. split; [vm_compute; reflexivity|].
    split; vm_compute; reflexivity.
Qed.

(** A 2-byte write materialized in a fresh slot. *)
Lemma payload_tail_is_stale_witness :
  0 <= to_int (PT_REGS_RC (Scenario.at_return 2)) /\
  wf_state init_state /\
  exists e,
    tls_events (process_SSL_data Scenario.on_B (Scenario.at_return 2) Scenario.thread_B
                  kSSLWrite Scenario.buf_B init_state) = tls_events init_state ++ [e] /\
    length (data e) = Z.to_nat MAX_DATA_SIZE /\
    drop (Z.to_nat (data_len e)) (data e) =
    drop (Z.to_nat (data_len e)) (data (event_slot Scenario.on_B init_state)).
Proof.
  assert (Hok : 0 <= to_int (PT_REGS_RC (Scenario.at_return 2)))
    by (vm_compute; discriminate).
  split; [exact Hok|]. split; [exact init_state_wf|].
  destruct (proj1 payload_tail_is_stale Scenario.on_B (Scenario.at_return 2)
              Scenario.thread_B kSSLWrite Scenario.buf_B init_state Hok)
    as (e & He & _ & Hlen & Htail).
  exists e. split; [exact He|]. split; [exact (Hlen init_state_wf)|exact Htail].
Defined.

(** * Further properties of the probe functions *)

(** ** Stamping the scratch record *)

Lemma split_pid_tgid id :
  0 <= id < 2 ^ 64 ->
  to_u32 (Z.shiftr id 32) * 2 ^ 32 + to_u32 (Z.land id 0xffffffff) = id.
Proof.
  intros Hid. unfold to_u32.
  change 0xffffffff with (Z.ones 32).
  rewrite Z.land_ones, Z.shiftr_div_pow2 by lia.
  rewrite Z.mod_mod by lia.
  rewrite (Z.mod_small (id / 2 ^ 32)).
  - pose proof (Z.div_mod id (2 ^ 32) ltac:(lia)). lia.
  - split; [apply Z.div_pos; lia|].
    apply Z.div_lt_upper_bound; lia.
Qed.

(** X1. [create_ssl_data_event] never returns [NULL]; it stamps the slot of
    the running processor with the clock and with the two halves of the
    thread identity, which put together give the identity back; the
    slot's kind, payload and length, the other processors' slots, the
    correlation maps and the published records are as before. *)
Theorem create_ssl_data_event_stamps (k : kernel) (id : Z) (s : bpf_state) :
  0 <= id < 2 ^ 64 ->
  exists s',
    create_ssl_data_event k id s = Some s' /\
    timestamp_ns (event_slot k s') = bpf_ktime_get_ns k /\
    pid (event_slot k s') * 2 ^ 32 + tid (event_slot k s') = id /\
    0 <= pid (event_slot k s') < 2 ^ 32 /\
    0 <= tid (event_slot k s') < 2 ^ 32 /\
    type (event_slot k s') = type (event_slot k s) /\
    data (event_slot k s') = data (event_slot k s) /\
    data_len (event_slot k s') = data_len (event_slot k s) /\
    (forall cpu, cpu <> smp_processor_id k ->
       data_buffer_heap s' cpu = data_buffer_heap s cpu) /\
    active_ssl_read_args_map s' = active_ssl_read_args_map s /\
    active_ssl_write_args_map s' = active_ssl_write_args_map s /\
    active_ssl_readex_buf_len_map s' = active_ssl_readex_buf_len_map s /\
    tls_events s' = tls_events s.
Proof.
  intros Hid. eexists. split; [reflexivity|].
  unfold event_slot. cbn. rewrite !percpu_store_same. cbn.
  split; [reflexivity|].
  split; [now apply split_pid_tgid|].
  split; [apply Z.mod_pos_bound; lia|].
  split; [apply Z.mod_pos_bound; lia|].
  repeat (split; [reflexivity|]).
  split; [|repeat split].
  intros cpu Hne. now rewrite !percpu_store_other.
Qed.

Lemma create_ssl_data_event_stamps_witness :
  0 <= Scenario.thread_A < 2 ^ 64 /\
  exists s',
    create_ssl_data_event Scenario.on_A Scenario.thread_A init_state = Some s' /\
    pid (event_slot Scenario.on_A s') = 1234 /\
    tid (event_slot Scenario.on_A s') = 1.
Proof.
  assert (H : 0 <= Scenario.thread_A < 2 ^ 64)
    by (vm_compute; split; [discriminate|reflexivity]).
  split; [exact H|].
  destruct (create_ssl_data_event_stamps Scenario.on_A Scenario.thread_A init_state H)
    as (s' & Hs' & _).
  exists s'. split; [exact Hs'|].
  injection Hs' as <-. split; vm_compute; reflexivity.
Defined.

(** ** What a handler publishes *)

Lemma process_SSL_data_publishes k ctx id ty buf s :
  tls_events (process_SSL_data k ctx id ty buf s) =
  tls_events s ++
    (if to_int (PT_REGS_RC ctx) <? 0 then []
     else [materialized k id ty buf (to_int (PT_REGS_RC ctx)) (event_slot k s)]).
Proof.
  destruct (Z.ltb_spec (to_int (PT_REGS_RC ctx)) 0).
  - rewrite process_SSL_data_failed by assumption. now rewrite app_nil_r.
  - now apply process_SSL_data_events.
Qed.

Lemma process_SSL_ex_data_publishes k ctx id ty _buf s :
  tls_events (process_SSL_ex_data k ctx id ty _buf s) =
  tls_events s ++
    (if to_int (PT_REGS_RC ctx) =? 0 then []
     else [materialized k id ty (content _buf)
             (to_int (load_size_t (user_mem k) (len _buf))) (event_slot k s)]).
Proof.
  destruct (Z.eqb_spec (to_int (PT_REGS_RC ctx)) 0).
  - rewrite process_SSL_ex_data_failed by assumption. now rewrite app_nil_r.
  - now apply process_SSL_ex_data_events.
Qed.

(** The target-process form of the read-with-count entry handler. *)
Lemma probe_entry_SSL_read_ex_target_state TRACE_PID k ctx s :
  pid_of k = TRACE_PID ->
  probe_entry_SSL_read_ex TRACE_PID k ctx s =
  let _buf := mk_buffer (PT_REGS_PARM2 ctx) (PT_REGS_PARM4 ctx) in
  let s1 :=
    set_args_buffer_heap
      (percpu_store (args_buffer_heap s) (smp_processor_id k) _buf) s in
  set_readex_buf_len_map
    (hash_update (active_ssl_readex_buf_len_map s1) (bpf_get_current_pid_tgid k) _buf) s1.
Proof.
  intros Hpid. unfold probe_entry_SSL_read_ex, pid_of in *.
  now rewrite Hpid, Z.eqb_refl.
Qed.

Lemma handler_target_events TRACE_PID p k ctx s :
  pid_of k = TRACE_PID ->
  tls_events (handler TRACE_PID p k ctx s) = tls_events s ++ published_by p k ctx s.
Proof.
  intros Hpid. destruct p; cbn [handler published_by].
  - rewrite probe_entry_SSL_write_target by assumption. cbn. now rewrite app_nil_r.
  - rewrite probe_ret_SSL_write_target by assumption. cbn.
    destruct (active_ssl_write_args_map s !! _); [|now rewrite app_nil_r].
    apply process_SSL_data_publishes.
  - rewrite probe_entry_SSL_read_target by assumption. cbn. now rewrite app_nil_r.
  - rewrite probe_ret_SSL_read_target by assumption. cbn.
    destruct (active_ssl_read_args_map s !! _); [|now rewrite app_nil_r].
    apply process_SSL_data_publishes.
  - rewrite probe_entry_SSL_read_ex_target_state by assumption. cbn.
    now rewrite app_nil_r.
  - rewrite probe_ret_SSL_read_ex_target by assumption. cbn.
    destruct (active_ssl_readex_buf_len_map s !! _); [|now rewrite app_nil_r].
    apply process_SSL_ex_data_publishes.
Qed.

Lemma published_by_stamped p k ctx s :
  Forall (fun e =>
            pid e = pid_of k /\
            tid e = to_u32 (Z.land (bpf_get_current_pid_tgid k) 0xffffffff) /\
            timestamp_ns e = bpf_ktime_get_ns k /\
            type e = kind_of p /\
            data_len_in_range e)
    (published_by p k ctx s).
Proof.
  assert (Hm : forall ty src l old,
             let e := materialized k (bpf_get_current_pid_tgid k) ty src l old in
             pid e = pid_of k /\
             tid e = to_u32 (Z.land (bpf_get_current_pid_tgid k) 0xffffffff) /\
             timestamp_ns e = bpf_ktime_get_ns k /\ type e = ty /\
             data_len_in_range e).
  { intros ty src l old. repeat split; apply clamp_MAX_range. }
  destruct p; cbn [published_by]; try constructor.
  - destruct (_ !! _); [|constructor]. destruct (_ <? _); repeat constructor; apply Hm.
  - destruct (_ !! _); [|constructor]. destruct (_ <? _); repeat constructor; apply Hm.
  - destruct (_ !! _); [|constructor]. destruct (_ =? _); repeat constructor; apply Hm.
Qed.

Lemma published_by_length p k ctx s :
  (length (published_by p k ctx s) <= if is_ret p then 1 else 0)%nat.
Proof.
  destruct p; cbn [published_by is_ret]; repeat case_match; cbn [length]; lia.
Qed.

(** What one firing of a probe appends to [tls_events]. *)
Lemma handler_publishes (TRACE_PID : Z) (p : probe) (k : kernel)
    (ctx : pt_regs) (s : bpf_state) :
  exists new,
    tls_events (handler TRACE_PID p k ctx s) = tls_events s ++ new /\
    (length new <= if is_ret p then 1 else 0)%nat /\
    Forall (fun e =>
              pid e = TRACE_PID /\
              tid e = to_u32 (Z.land (bpf_get_current_pid_tgid k) 0xffffffff) /\
              timestamp_ns e = bpf_ktime_get_ns k /\
              type e = kind_of p) new.
Proof.
  destruct (Z.eq_dec (pid_of k) TRACE_PID) as [Hpid|Hne].
  - exists (published_by p k ctx s).
    split; [now apply handler_target_events|].
    split; [apply published_by_length|].
    eapply Forall_impl; [apply published_by_stamped|].
    cbn beta. intros e (H1 & H2 & H3 & H4 & _). rewrite <- Hpid. tauto.
  - exists []. rewrite handler_filtered by assumption.
    rewrite app_nil_r. split; [reflexivity|]. split; [|constructor].
    destruct (is_ret p); cbn; lia.
Qed.

(** X2. One firing of a probe appends at most one record to
    [tls_events], and none at all when it is an entry probe; the record
    carries [TRACE_PID] as process id, the low half of the thread
    identity as thread id, the clock of that firing, and the kind of
    the probed function (write for [SSL_write], read for [SSL_read] and
    [SSL_read_ex]). *)
Theorem handler_publishes_stamped (TRACE_PID : Z) (p : probe) (k : kernel)
    (ctx : pt_regs) (s : bpf_state) :
  exists new,
    tls_events (handler TRACE_PID p k ctx s) = tls_events s ++ new /\
    (length new <= if is_ret p then 1 else 0)%nat /\
    Forall (fun e =>
              pid e = TRACE_PID /\
              tid e = to_u32 (Z.land (bpf_get_current_pid_tgid k) 0xffffffff) /\
              timestamp_ns e = bpf_ktime_get_ns k /\
              type e = kind_of p) new.
Proof. apply handler_publishes. Qed.

(** Returns fired by target threads in a trace. *)
Lemma run_publishes TRACE_PID tr : forall s,
  exists new,
    tls_events (run TRACE_PID tr s) = tls_events s ++ new /\
    (length new <=
       length (List.filter
                 (fun i => is_ret (inv_probe i) && targets TRACE_PID i) tr))%nat /\
    Forall (fun e => pid e = TRACE_PID) new.
Proof.
  induction tr as [|i tr IH]; intros s.
  - exists []. cbn. rewrite app_nil_r. repeat split; [lia|constructor].
  - change (run TRACE_PID (i :: tr) s) with (run TRACE_PID tr (step TRACE_PID s i)).
    destruct (IH (step TRACE_PID s i)) as (new2 & E2 & L2 & F2).
    unfold step in E2 at 2.
    destruct (Z.eq_dec (pid_of (inv_kernel i)) TRACE_PID) as [Hpid|Hne].
    + destruct (handler_publishes TRACE_PID (inv_probe i) (inv_kernel i)
                  (inv_regs i) s) as (new1 & E1 & L1 & F1).
      exists (new1 ++ new2). rewrite E2, E1, app_assoc.
      split; [reflexivity|]. split.
      * rewrite length_app. cbn [List.filter]. unfold targets at 1.
        rewrite Hpid, Z.eqb_refl, andb_true_r.
        destruct (is_ret (inv_probe i)); cbn [length]; lia.
      * apply Forall_app. split; [|assumption].
        eapply Forall_impl; [exact F1|]. cbn beta. tauto.
    + exists new2. rewrite E2, handler_filtered by assumption.
      split; [reflexivity|]. split; [|assumption].
      cbn [List.filter]. unfold targets at 1.
      destruct (Z.eqb_spec (pid_of (inv_kernel i)) TRACE_PID); [contradiction|].
      now rewrite andb_false_r.
Qed.

(** X3. Along any sequence of probe firings, from any state: every
    record added to [tls_events] carries [TRACE_PID] as process id, and
    there are at most as many new records as return probes fired by
    threads of the target process. *)
Theorem trace_publishes_target_returns (TRACE_PID : Z) (tr : list invocation)
    (s : bpf_state) :
  exists new,
    tls_events (run TRACE_PID tr s) = tls_events s ++ new /\
    (length new <=
       length (List.filter
                 (fun i => is_ret (inv_probe i) && targets TRACE_PID i) tr))%nat /\
    Forall (fun e => pid e = TRACE_PID) new.
Proof. apply run_publishes. Qed.

(** ** The correlation maps after a handler *)

Lemma handler_target_maps TRACE_PID p k ctx s :
  pid_of k = TRACE_PID ->
  let id := bpf_get_current_pid_tgid k in
  let s' := handler TRACE_PID p k ctx s in
  active_ssl_read_args_map s' =
    match p with
    | Entry_SSL_read => hash_update (active_ssl_read_args_map s) id (PT_REGS_PARM2 ctx)
    | Ret_SSL_read | Ret_SSL_read_ex => delete id (active_ssl_read_args_map s)
    | _ => active_ssl_read_args_map s
    end /\
  active_ssl_write_args_map s' =
    match p with
    | Entry_SSL_write => hash_update (active_ssl_write_args_map s) id (PT_REGS_PARM2 ctx)
    | Ret_SSL_write => delete id (active_ssl_write_args_map s)
    | _ => active_ssl_write_args_map s
    end /\
  active_ssl_readex_buf_len_map s' =
    match p with
    | Entry_SSL_read_ex =>
        hash_update (active_ssl_readex_buf_len_map s) id
          (mk_buffer (PT_REGS_PARM2 ctx) (PT_REGS_PARM4 ctx))
    | _ => active_ssl_readex_buf_len_map s
    end.
Proof.
  intros Hpid id s'. subst s'. destruct p; cbn [handler].
  - rewrite probe_entry_SSL_write_target by assumption. repeat split.
  - rewrite probe_ret_SSL_write_target by assumption. cbn.
    destruct (active_ssl_write_args_map s !! _) as [buf|]; [|repeat split].
    destruct (process_SSL_data_frame k ctx (bpf_get_current_pid_tgid k) kSSLWrite buf s)
      as (-> & -> & -> & _). repeat split.
  - rewrite probe_entry_SSL_read_target by assumption. repeat split.
  - rewrite probe_ret_SSL_read_target by assumption. cbn.
    destruct (active_ssl_read_args_map s !! _) as [buf|]; [|repeat split].
    destruct (process_SSL_data_frame k ctx (bpf_get_current_pid_tgid k) kSSLRead buf s)
      as (-> & -> & -> & _). repeat split.
  - rewrite probe_entry_SSL_read_ex_target_state by assumption. repeat split.
  - rewrite probe_ret_SSL_read_ex_target by assumption. cbn.
    destruct (active_ssl_readex_buf_len_map s !! _) as [b|]; [|repeat split].
    destruct (process_SSL_ex_data_frame k ctx (bpf_get_current_pid_tgid k) kSSLRead b s)
      as (-> & -> & -> & _). repeat split.
Qed.

(** X4. A handler fired by one thread leaves the pending records of
    every other thread, in all three correlation maps, as they were. *)
Theorem handler_keeps_other_threads (TRACE_PID : Z) (p : probe) (k : kernel)
    (ctx : pt_regs) (s : bpf_state) (key : Z) :
  key <> bpf_get_current_pid_tgid k ->
  let s' := handler TRACE_PID p k ctx s in
  active_ssl_read_args_map s' !! key = active_ssl_read_args_map s !! key /\
  active_ssl_write_args_map s' !! key = active_ssl_write_args_map s !! key /\
  active_ssl_readex_buf_len_map s' !! key = active_ssl_readex_buf_len_map s !! key.
Proof.
  intros Hne s'. subst s'.
  destruct (Z.eq_dec (pid_of k) TRACE_PID) as [Hpid|Hother].
  - destruct (handler_target_maps TRACE_PID p k ctx s Hpid) as (-> & -> & ->).
    destruct p; repeat split;
      rewrite ?hash_update_lookup_ne, ?lookup_delete_ne by congruence; reflexivity.
  - rewrite handler_filtered by assumption. repeat split.
Qed.

Lemma handler_keeps_other_threads_witness :
  Scenario.thread_B <> bpf_get_current_pid_tgid Scenario.on_A /\
  let s1 := probe_entry_SSL_write Scenario.target Scenario.on_B
              (Scenario.at_entry Scenario.buf_B 0) init_state in
  active_ssl_write_args_map
    (handler Scenario.target Ret_SSL_write Scenario.on_A (Scenario.at_return 16) s1)
    !! Scenario.thread_B = Some Scenario.buf_B.
Proof.
  assert (Hne : Scenario.thread_B <> bpf_get_current_pid_tgid Scenario.on_A)
    by (vm_compute; discriminate).
  split; [exact Hne|]. intros s1.
  rewrite (proj1 (proj2 (handler_keeps_other_threads Scenario.target Ret_SSL_write
                           Scenario.on_A (Scenario.at_return 16) s1
                           Scenario.thread_B Hne))).
  vm_compute. reflexivity.
Defined.

(** X5. A handler running on one processor leaves the event slot and
    the argument slot of every other processor as they were. *)
Theorem handler_keeps_other_processors (TRACE_PID : Z) (p : probe) (k : kernel)
    (ctx : pt_regs) (s : bpf_state) (cpu : nat) :
  cpu <> smp_processor_id k ->
  data_buffer_heap (handler TRACE_PID p k ctx s) cpu = data_buffer_heap s cpu /\
  args_buffer_heap (handler TRACE_PID p k ctx s) cpu = args_buffer_heap s cpu.
Proof.
  intros Hne.
  destruct (Z.eq_dec (pid_of k) TRACE_PID) as [Hpid|Hother];
    [|rewrite handler_filtered by assumption; split; reflexivity].
  destruct p; cbn [handler].
  - rewrite probe_entry_SSL_write_target by assumption. split; reflexivity.
  - rewrite probe_ret_SSL_write_target by assumption. cbn.
    destruct (active_ssl_write_args_map s !! _) as [buf|]; [|split; reflexivity].
    destruct (process_SSL_data_frame k ctx (bpf_get_current_pid_tgid k) kSSLWrite buf s)
      as (_ & _ & _ & -> & Hd). split; [now apply Hd|reflexivity].
  - rewrite probe_entry_SSL_read_target by assumption. split; reflexivity.
  - rewrite probe_ret_SSL_read_target by assumption. cbn.
    destruct (active_ssl_read_args_map s !! _) as [buf|]; [|split; reflexivity].
    destruct (process_SSL_data_frame k ctx (bpf_get_current_pid_tgid k) kSSLRead buf s)
      as (_ & _ & _ & -> & Hd). split; [now apply Hd|reflexivity].
  - rewrite probe_entry_SSL_read_ex_target_state by assumption. cbn.
    split; [reflexivity|now apply percpu_store_other].
  - rewrite probe_ret_SSL_read_ex_target by assumption. cbn.
    destruct (active_ssl_readex_buf_len_map s !! _) as [b|]; [|split; reflexivity].
    destruct (process_SSL_ex_data_frame k ctx (bpf_get_current_pid_tgid k) kSSLRead b s)
      as (_ & _ & _ & -> & Hd). split; [now apply Hd|reflexivity].
Qed.

Lemma handler_keeps_other_processors_witness :
  (1 <> smp_processor_id Scenario.on_A)%nat /\
  data_buffer_heap
    (handler Scenario.target Ret_SSL_write Scenario.on_A (Scenario.at_return 16)
       (probe_entry_SSL_write Scenario.target Scenario.on_A
          (Scenario.at_entry Scenario.buf_A 0) init_state)) 1%nat = zero_event.
Proof.
  assert (Hne : (1 <> smp_processor_id Scenario.on_A)%nat) by (cbn; lia).
  split; [exact Hne|].
  exact (proj1 (handler_keeps_other_processors Scenario.target Ret_SSL_write
                  Scenario.on_A (Scenario.at_return 16)
                  (probe_entry_SSL_write Scenario.target Scenario.on_A
                     (Scenario.at_entry Scenario.buf_A 0) init_state) 1%nat Hne)).
Defined.

(** ** Room in a table *)

Lemma own_room_update {V : Type} (m : gmap Z V) key val :
  own_room m key -> hash_update m key val = <[key := val]> m.
Proof.
  unfold own_room, hash_update. intros Hroom.
  destruct (m !! key) eqn:E; [reflexivity|].
  rewrite delete_id in Hroom by assumption.
  destruct (Z.ltb_spec (Z.of_nat (size m)) hash_max_entries); [reflexivity|lia].
Qed.

Lemma own_room_insert {V : Type} (m : gmap Z V) key val :
  own_room m key -> own_room (<[key := val]> m) key.
Proof. unfold own_room. now rewrite delete_insert_eq. Qed.

Lemma own_room_delete {V : Type} (m : gmap Z V) key :
  own_room m key -> own_room (delete key m) key.
Proof. unfold own_room. now rewrite delete_delete_eq. Qed.

Lemma own_room_hash_update {V : Type} (m : gmap Z V) key val :
  own_room m key -> own_room (hash_update m key val) key.
Proof. intros H. rewrite own_room_update by assumption. now apply own_room_insert. Qed.

(** An empty table has room for anybody. *)
Lemma own_room_empty {V : Type} key : own_room (∅ : gmap Z V) key.
Proof.
  unfold own_room. rewrite delete_empty, map_size_empty. reflexivity.
Qed.

(** The handlers of a thread keep the room of that thread's key. *)
Lemma handler_keeps_room TRACE_PID p k ctx s :
  let id := bpf_get_current_pid_tgid k in
  own_room (active_ssl_read_args_map s) id ->
  own_room (active_ssl_write_args_map s) id ->
  own_room (active_ssl_readex_buf_len_map s) id ->
  let s' := handler TRACE_PID p k ctx s in
  own_room (active_ssl_read_args_map s') id /\
  own_room (active_ssl_write_args_map s') id /\
  own_room (active_ssl_readex_buf_len_map s') id.
Proof.
  intros id HR HW HX s'. subst s'.
  destruct (Z.eq_dec (pid_of k) TRACE_PID) as [Hpid|Hother].
  - destruct (handler_target_maps TRACE_PID p k ctx s Hpid) as (-> & -> & ->).
    destruct p; repeat split;
      auto using own_room_hash_update, own_room_delete.
  - rewrite handler_filtered by assumption. auto.
Qed.

Lemma handler_entry_keeps_events TRACE_PID sh k ctx s :
  tls_events (handler TRACE_PID (entry_probe sh) k ctx s) = tls_events s /\
  data_buffer_heap (handler TRACE_PID (entry_probe sh) k ctx s) = data_buffer_heap s.
Proof.
  destruct (Z.eq_dec (pid_of k) TRACE_PID) as [Hpid|Hother];
    [|rewrite handler_filtered by assumption; split; reflexivity].
  destruct sh; cbn [entry_probe handler].
  - rewrite probe_entry_SSL_write_target by assumption. split; reflexivity.
  - rewrite probe_entry_SSL_read_target by assumption. split; reflexivity.
  - rewrite probe_entry_SSL_read_ex_target_state by assumption. split; reflexivity.
Qed.

(** ** Entry and return of one call *)

(** Entry, then return, of one call on a target thread. *)
Lemma call_events (TRACE_PID : Z) (c : call) (s : bpf_state) :
  let id := bpf_get_current_pid_tgid (call_entry_kernel c) in
  pid_of (call_entry_kernel c) = TRACE_PID ->
  bpf_get_current_pid_tgid (call_ret_kernel c) = id ->
  shape_room (call_shape c) s id ->
  tls_events (run TRACE_PID (call_trace c) s) =
  tls_events s ++
    (if succeeded c then [call_event c (event_slot (call_ret_kernel c) s)] else []).
Proof.
  destruct c as [sh kE ctxE kR ctxR].
  cbn [call_entry_kernel call_ret_kernel call_shape]. cbv zeta.
  intros HpidE HidR Hroom.
  assert (HpidR : pid_of kR = TRACE_PID) by (unfold pid_of in *; now rewrite HidR).
  unfold call_trace, run. cbn [fold_left]. unfold step.
  cbn [inv_probe inv_kernel inv_regs
    call_shape call_entry_kernel call_entry_regs call_ret_kernel call_ret_regs].
  rewrite handler_target_events by assumption.
  destruct (handler_entry_keeps_events TRACE_PID sh kE ctxE s) as [Hev Hheap].
  rewrite Hev. f_equal.
  destruct (handler_target_maps TRACE_PID (entry_probe sh) kE ctxE s HpidE)
    as (HR & HW & HX).
  unfold succeeded, call_event.
  cbn [call_shape call_ret_regs call_ret_kernel call_entry_regs].
  destruct sh; cbn [ret_probe published_by entry_probe shape_room] in *; rewrite HidR.
  - rewrite HW, own_room_update, lookup_insert_eq by assumption.
    unfold event_slot. rewrite Hheap. now destruct (_ <? _).
  - rewrite HR, own_room_update, lookup_insert_eq by assumption.
    unfold event_slot. rewrite Hheap. now destruct (_ <? _).
  - rewrite HX, own_room_update, lookup_insert_eq by assumption.
    unfold event_slot. rewrite Hheap. cbn [content len]. now destruct (_ =? _).
Qed.

(** X6. When a thread of the target process makes a call (the entry
    probe fires, then the return probe, on that thread), the return
    publishes exactly one record if the call succeeded (non-negative
    length, or non-zero status for [SSL_read_ex]) and none otherwise,
    and that record is materialized from the pointers captured at this
    call's entry: a record left pending by an earlier entry of the same
    shape on the thread is overwritten.  The table is assumed to have
    room for the thread's key. *)
Theorem call_publishes_own_arguments (TRACE_PID : Z) (c : call) (s : bpf_state) :
  let id := bpf_get_current_pid_tgid (call_entry_kernel c) in
  pid_of (call_entry_kernel c) = TRACE_PID ->
  bpf_get_current_pid_tgid (call_ret_kernel c) = id ->
  shape_room (call_shape c) s id ->
  tls_events (run TRACE_PID (call_trace c) s) =
  tls_events s ++
    (if succeeded c then [call_event c (event_slot (call_ret_kernel c) s)] else []).
Proof. apply call_events. Qed.

Lemma call_publishes_own_arguments_witness :
  let c := mk_call ReadEx
             Scenario.on_A (Scenario.at_entry Scenario.buf_A Scenario.readbytes_ptr)
             Scenario.on_A (Scenario.at_return 1) in
  pid_of (call_entry_kernel c) = Scenario.target /\
  shape_room (call_shape c) init_state Scenario.thread_A /\
  exists e,
    tls_events (run Scenario.target (call_trace c) init_state) = [e] /\
    type e = kSSLRead /\ data_len e = 10 /\
    take 10 (data e) = take 10 Scenario.bytes_A.
Proof.
  intros c.
  assert (Hpid : pid_of (call_entry_kernel c) = Scenario.target) by reflexivity.
  assert (Hroom : shape_room (call_shape c) init_state Scenario.thread_A)
    by apply own_room_empty.
  split; [exact Hpid|]. split; [exact Hroom|].
  exists (call_event c (event_slot Scenario.on_A init_state)).
  split.
  - exact (call_publishes_own_arguments Scenario.target c init_state Hpid eq_refl Hroom).
  - repeat split; vm_compute; reflexivity.
Defined.

Lemma run_app TRACE_PID tr1 tr2 s :
  run TRACE_PID (tr1 ++ tr2) s = run TRACE_PID tr2 (run TRACE_PID tr1 s).
Proof. unfold run. apply fold_left_app. Qed.

Lemma call_keeps_room TRACE_PID id c s :
  on_thread id c ->
  own_room (active_ssl_read_args_map s) id ->
  own_room (active_ssl_write_args_map s) id ->
  own_room (active_ssl_readex_buf_len_map s) id ->
  let s' := run TRACE_PID (call_trace c) s in
  own_room (active_ssl_read_args_map s') id /\
  own_room (active_ssl_write_args_map s') id /\
  own_room (active_ssl_readex_buf_len_map s') id.
Proof.
  intros [HE HR] H1 H2 H3. unfold call_trace, run. cbn [fold_left]. unfold step.
  cbn [inv_probe inv_kernel inv_regs]. subst id.
  destruct (handler_keeps_room TRACE_PID (entry_probe (call_shape c))
              (call_entry_kernel c) (call_entry_regs c) s H1 H2 H3) as (A1 & A2 & A3).
  rewrite <- HR in A1, A2, A3 |- *.
  now apply handler_keeps_room.
Qed.

(** X7. A thread of the target process makes a sequence of calls to the
    probed functions, in any mix of the three shapes, each returning
    before the next is entered.  Then the number of records published
    is the number of calls that succeeded (non-negative length, or
    non-zero status for [SSL_read_ex]).  The three tables are assumed to
    have room for the thread's key at the start. *)
Theorem calls_publish_successes (TRACE_PID id : Z) (cs : list call) :
  forall s : bpf_state,
  to_u32 (Z.shiftr id 32) = TRACE_PID ->
  Forall (on_thread id) cs ->
  own_room (active_ssl_read_args_map s) id ->
  own_room (active_ssl_write_args_map s) id ->
  own_room (active_ssl_readex_buf_len_map s) id ->
  length (tls_events (run TRACE_PID (concat (map call_trace cs)) s)) =
  (length (tls_events s) + length (List.filter succeeded cs))%nat.
Proof.
  induction cs as [|c cs IH]; intros s Hpid Hall H1 H2 H3.
  - cbn. lia.
  - apply Forall_cons in Hall as [Hc Hall].
    cbn [map concat]. rewrite run_app.
    destruct (call_keeps_room TRACE_PID id c s Hc H1 H2 H3) as (A1 & A2 & A3).
    rewrite IH by assumption.
    destruct Hc as [HE HR].
    rewrite call_events.
    + rewrite length_app. cbn [List.filter].
      destruct (succeeded c); cbn [length]; lia.
    + unfold pid_of. now rewrite HE.
    + now rewrite HE, HR.
    + rewrite HE. destruct (call_shape c); assumption.
Qed.

Lemma calls_publish_successes_witness :
  let cs :=
    [mk_call Write Scenario.on_A (Scenario.at_entry Scenario.buf_A 0)
       Scenario.on_A (Scenario.at_return 16);
     mk_call Read Scenario.on_A (Scenario.at_entry Scenario.buf_B 0)
       Scenario.on_A (Scenario.at_return (2 ^ 32 - 1));
     mk_call ReadEx Scenario.on_A (Scenario.at_entry Scenario.buf_A Scenario.readbytes_ptr)
       Scenario.on_A (Scenario.at_return 1)] in
  to_u32 (Z.shiftr Scenario.thread_A 32) = Scenario.target /\
  Forall (on_thread Scenario.thread_A) cs /\
  length (tls_events (run Scenario.target (concat (map call_trace cs)) init_state)) =
  2%nat.
Proof.
  intros cs.
  assert (Hpid : to_u32 (Z.shiftr Scenario.thread_A 32) = Scenario.target)
    by reflexivity.
  assert (Hall : Forall (on_thread Scenario.thread_A) cs)
    by (repeat constructor).
  split; [exact Hpid|]. split; [exact Hall|].
  exact (calls_publish_successes Scenario.target Scenario.thread_A cs init_state
           Hpid Hall (own_room_empty _) (own_room_empty _) (own_room_empty _)).
Defined.

(** X8. A second entry of the same shape on a thread, before the first
    has returned, replaces the pending record: the return that follows
    materializes from the pointers of the later entry, and the earlier
    entry's pointers are never used. *)
Theorem second_entry_overwrites (TRACE_PID : Z) (k1 : kernel) (ctx1 : pt_regs)
    (c : call) (s : bpf_state) :
  let id := bpf_get_current_pid_tgid (call_entry_kernel c) in
  pid_of (call_entry_kernel c) = TRACE_PID ->
  bpf_get_current_pid_tgid (call_ret_kernel c) = id ->
  bpf_get_current_pid_tgid k1 = id ->
  shape_room (call_shape c) s id ->
  tls_events
    (run TRACE_PID
       (mk_invocation (entry_probe (call_shape c)) k1 ctx1 :: call_trace c) s) =
  tls_events s ++
    (if succeeded c then [call_event c (event_slot (call_ret_kernel c) s)] else []).
Proof.
  cbv zeta. intros Hpid HidR Hid1 Hroom.
  change (run TRACE_PID (?i :: ?tr) s) with (run TRACE_PID tr (step TRACE_PID s i)).
  unfold step at 1. cbn [inv_probe inv_kernel inv_regs].
  assert (Hpid1 : pid_of k1 = TRACE_PID) by (unfold pid_of in *; now rewrite Hid1).
  destruct (handler_entry_keeps_events TRACE_PID (call_shape c) k1 ctx1 s)
    as [Hev Hheap].
  destruct (handler_target_maps TRACE_PID (entry_probe (call_shape c)) k1 ctx1 s Hpid1)
    as (HR & HW & HX).
  rewrite call_events; try assumption.
  - unfold event_slot. now rewrite Hev, Hheap.
  - rewrite <- Hid1.
    destruct (call_shape c); cbn [shape_room entry_probe] in *;
      rewrite ?HR, ?HW, ?HX; apply own_room_hash_update; now rewrite Hid1.
Qed.

Lemma second_entry_overwrites_witness :
  let c := mk_call Write Scenario.on_A (Scenario.at_entry Scenario.buf_B 0)
             Scenario.on_A (Scenario.at_return 2) in
  pid_of (call_entry_kernel c) = Scenario.target /\
  shape_room (call_shape c) init_state Scenario.thread_A /\
  exists e,
    tls_events
      (run Scenario.target
         (mk_invocation Entry_SSL_write Scenario.on_A (Scenario.at_entry Scenario.buf_A 0)
            :: call_trace c) init_state) = [e] /\
    take 2 (data e) = Scenario.bytes_B.
Proof.
  intros c.
  assert (Hpid : pid_of (call_entry_kernel c) = Scenario.target) by reflexivity.
  assert (Hroom : shape_room (call_shape c) init_state Scenario.thread_A)
    by apply own_room_empty.
  split; [exact Hpid|]. split; [exact Hroom|].
  exists (call_event c (event_slot Scenario.on_A init_state)). split.
  - exact (second_entry_overwrites Scenario.target Scenario.on_A
             (Scenario.at_entry Scenario.buf_A 0) c init_state
             Hpid eq_refl eq_refl Hroom).
  - vm_compute. reflexivity.
Defined.

(** ** Returns without a pending record *)

Lemma set_write_args_map_id s : set_write_args_map (active_ssl_write_args_map s) s = s.
Proof. now destruct s. Qed.

Lemma set_read_args_map_id s : set_read_args_map (active_ssl_read_args_map s) s = s.
Proof. now destruct s. Qed.

(** A return probe with nothing to look up. *)
Lemma ret_without_record (TRACE_PID : Z) (k : kernel) (ctx : pt_regs)
    (s : bpf_state) :
  let id := bpf_get_current_pid_tgid k in
  (active_ssl_write_args_map s !! id = None ->
   probe_ret_SSL_write TRACE_PID k ctx s = s) /\
  (active_ssl_read_args_map s !! id = None ->
   probe_ret_SSL_read TRACE_PID k ctx s = s) /\
  (active_ssl_readex_buf_len_map s !! id = None ->
   active_ssl_read_args_map s !! id = None ->
   probe_ret_SSL_read_ex TRACE_PID k ctx s = s).
Proof.
  cbv zeta. split; [|split].
  - intros Hnone. unfold probe_ret_SSL_write. destruct (negb _); [reflexivity|].
    unfold hash_lookup, hash_delete. rewrite Hnone, delete_id by assumption.
    apply set_write_args_map_id.
  - intros Hnone. unfold probe_ret_SSL_read. destruct (negb _); [reflexivity|].
    unfold hash_lookup, hash_delete. rewrite Hnone, delete_id by assumption.
    apply set_read_args_map_id.
  - intros Hx Hnone. unfold probe_ret_SSL_read_ex. destruct (negb _); [reflexivity|].
    unfold hash_lookup, hash_delete. rewrite Hx, delete_id by assumption.
    apply set_read_args_map_id.
Qed.

(** X9. A return probe that finds no pending record for its thread
    (the probe was attached in mid-call, or the entry was refused)
    changes nothing at all: no record is published, no scratch slot is
    written, the maps are as before.  For [SSL_read_ex] this needs the
    thread to have no pending [SSL_read] record either. *)
Theorem unmatched_return_is_noop (TRACE_PID : Z) (k : kernel) (ctx : pt_regs)
    (s : bpf_state) :
  let id := bpf_get_current_pid_tgid k in
  (active_ssl_write_args_map s !! id = None ->
   probe_ret_SSL_write TRACE_PID k ctx s = s) /\
  (active_ssl_read_args_map s !! id = None ->
   probe_ret_SSL_read TRACE_PID k ctx s = s) /\
  (active_ssl_readex_buf_len_map s !! id = None ->
   active_ssl_read_args_map s !! id = None ->
   probe_ret_SSL_read_ex TRACE_PID k ctx s = s).
Proof. apply ret_without_record. Qed.

Lemma unmatched_return_is_noop_witness :
  active_ssl_write_args_map init_state
    !! bpf_get_current_pid_tgid Scenario.on_A = None /\
  probe_ret_SSL_write Scenario.target Scenario.on_A (Scenario.at_return 16) init_state =
  init_state.
Proof.
  assert (H : active_ssl_write_args_map init_state
                !! bpf_get_current_pid_tgid Scenario.on_A = None)
    by apply lookup_empty.
  split; [exact H|].
  exact (proj1 (unmatched_return_is_noop Scenario.target Scenario.on_A
                  (Scenario.at_return 16) init_state) H).
Defined.

(** X10. The write and read return handlers consume the pending record:
    a second return on the same thread, with no entry in between,
    changes nothing and publishes nothing. *)
Theorem return_consumes_record (TRACE_PID : Z) (k1 k2 : kernel) (ctx1 ctx2 : pt_regs)
    (s : bpf_state) :
  pid_of k1 = TRACE_PID ->
  bpf_get_current_pid_tgid k2 = bpf_get_current_pid_tgid k1 ->
  probe_ret_SSL_write TRACE_PID k2 ctx2 (probe_ret_SSL_write TRACE_PID k1 ctx1 s) =
    probe_ret_SSL_write TRACE_PID k1 ctx1 s /\
  probe_ret_SSL_read TRACE_PID k2 ctx2 (probe_ret_SSL_read TRACE_PID k1 ctx1 s) =
    probe_ret_SSL_read TRACE_PID k1 ctx1 s.
Proof.
  intros Hpid Hid. split.
  - apply ret_without_record. rewrite Hid.
    now apply probe_ret_SSL_write_evicts.
  - apply ret_without_record. rewrite Hid.
    now apply probe_ret_SSL_read_evicts.
Qed.

Lemma return_consumes_record_witness :
  pid_of Scenario.on_A = Scenario.target /\
  let s1 := probe_ret_SSL_write Scenario.target Scenario.on_A (Scenario.at_return 16)
              (probe_entry_SSL_write Scenario.target Scenario.on_A
                 (Scenario.at_entry Scenario.buf_A 0) init_state) in
  probe_ret_SSL_write Scenario.target Scenario.on_A (Scenario.at_return 16) s1 = s1.
Proof.
  assert (Hpid : pid_of Scenario.on_A = Scenario.target) by reflexivity.
  split; [exact Hpid|]. intros s1.
  exact (proj1 (return_consumes_record Scenario.target Scenario.on_A Scenario.on_A
                  (Scenario.at_return 16) (Scenario.at_return 16) _ Hpid eq_refl)).
Defined.

(** X11. The [SSL_read_ex] return handler does not consume its pending
    record (its final delete addresses [active_ssl_read_args_map]): a
    second successful return on the same thread, with no entry in
    between, publishes a second record materialized from the same
    captured pointers. *)
Theorem read_ex_record_is_replayed (TRACE_PID : Z) (k1 k2 : kernel)
    (ctx1 ctx2 : pt_regs) (s : bpf_state) (_buf : buffer) :
  let id := bpf_get_current_pid_tgid k1 in
  pid_of k1 = TRACE_PID ->
  bpf_get_current_pid_tgid k2 = id ->
  active_ssl_readex_buf_len_map s !! id = Some _buf ->
  to_int (PT_REGS_RC ctx1) <> 0 ->
  to_int (PT_REGS_RC ctx2) <> 0 ->
  let s1 := probe_ret_SSL_read_ex TRACE_PID k1 ctx1 s in
  let s2 := probe_ret_SSL_read_ex TRACE_PID k2 ctx2 s1 in
  active_ssl_readex_buf_len_map s2 !! id = Some _buf /\
  tls_events s2 =
  tls_events s ++
    [materialized k1 id kSSLRead (content _buf)
       (to_int (load_size_t (user_mem k1) (len _buf))) (event_slot k1 s);
     materialized k2 id kSSLRead (content _buf)
       (to_int (load_size_t (user_mem k2) (len _buf))) (event_slot k2 s1)].
Proof.
  cbv zeta. intros Hpid Hid Hpending Hok1 Hok2.
  assert (Hpid2 : pid_of k2 = TRACE_PID) by (unfold pid_of in *; now rewrite Hid).
  split; [now rewrite !probe_ret_SSL_read_ex_keeps_own_map|].
  change (probe_ret_SSL_read_ex TRACE_PID) with (handler TRACE_PID Ret_SSL_read_ex).
  rewrite !handler_target_events by assumption.
  cbn [published_by handler]. rewrite probe_ret_SSL_read_ex_keeps_own_map.
  rewrite Hid, Hpending.
  destruct (Z.eqb_spec (to_int (PT_REGS_RC ctx1)) 0); [contradiction|].
  destruct (Z.eqb_spec (to_int (PT_REGS_RC ctx2)) 0); [contradiction|].
  now rewrite <- app_assoc.
Qed.

Lemma read_ex_record_is_replayed_witness :
  let s0 := probe_entry_SSL_read_ex Scenario.target Scenario.on_A
              (Scenario.at_entry Scenario.buf_A Scenario.readbytes_ptr) init_state in
  pid_of Scenario.on_A = Scenario.target /\
  active_ssl_readex_buf_len_map s0 !! bpf_get_current_pid_tgid Scenario.on_A =
    Some (mk_buffer Scenario.buf_A Scenario.readbytes_ptr) /\
  to_int (PT_REGS_RC (Scenario.at_return 1)) <> 0 /\
  length
    (tls_events
       (probe_ret_SSL_read_ex Scenario.target Scenario.on_A (Scenario.at_return 1)
          (probe_ret_SSL_read_ex Scenario.target Scenario.on_A (Scenario.at_return 1)
             s0))) = 2%nat.
Proof.
  intros s0.
  assert (Hpid : pid_of Scenario.on_A = Scenario.target) by reflexivity.
  assert (Hpending : active_ssl_readex_buf_len_map s0
                       !! bpf_get_current_pid_tgid Scenario.on_A =
                     Some (mk_buffer Scenario.buf_A Scenario.readbytes_ptr))
    by (vm_compute; reflexivity).
  assert (Hok : to_int (PT_REGS_RC (Scenario.at_return 1)) <> 0)
    by (vm_compute; discriminate).
  split; [exact Hpid|]. split; [exact Hpending|]. split; [exact Hok|].
  rewrite (proj2 (read_ex_record_is_replayed Scenario.target Scenario.on_A Scenario.on_A
                    (Scenario.at_return 1) (Scenario.at_return 1) s0 _
                    Hpid eq_refl Hpending Hok Hok)).
  reflexivity.
Defined.

(** ** Boundary lengths *)

(** X12. A return value of 0 is not a failure for [process_SSL_data]: it
    publishes one record with [data_len] 0, and since nothing is
    copied, the whole payload of that record is what the scratch slot
    held before, whatever the buffer pointer is. *)
Theorem zero_length_publishes_empty_record (k : kernel) (ctx : pt_regs) (id : Z)
    (ty : ssl_data_event_type) (buf : Z) (s : bpf_state) :
  to_int (PT_REGS_RC ctx) = 0 ->
  exists e,
    tls_events (process_SSL_data k ctx id ty buf s) = tls_events s ++ [e] /\
    type e = ty /\
    data_len e = 0 /\
    data e = data (event_slot k s).
Proof.
  intros Hz. eexists. split; [apply process_SSL_data_events; lia|].
  rewrite Hz. repeat split.
Qed.

Lemma zero_length_publishes_empty_record_witness :
  to_int (PT_REGS_RC (Scenario.at_return 0)) = 0 /\
  exists e,
    tls_events (process_SSL_data Scenario.on_A (Scenario.at_return 0) Scenario.thread_A
                  kSSLRead Scenario.buf_A init_state) = tls_events init_state ++ [e] /\
    type e = kSSLRead /\ data_len e = 0 /\
    data e = data (event_slot Scenario.on_A init_state).
Proof.
  assert (H : to_int (PT_REGS_RC (Scenario.at_return 0)) = 0) by reflexivity.
  split; [exact H|].
  exact (zero_length_publishes_empty_record Scenario.on_A (Scenario.at_return 0)
           Scenario.thread_A kSSLRead Scenario.buf_A init_state H).
Defined.

Lemma to_int_low_half v : v mod 2 ^ 32 < 2 ^ 31 -> to_int v = v mod 2 ^ 32.
Proof.
  intros Hlow. unfold to_int.
  pose proof (Z.mod_pos_bound v (2 ^ 32) ltac:(lia)) as Hr.
  rewrite <- (Zplus_mod_idemp_l v), Z.mod_small by lia. lia.
Qed.

Lemma to_int_high_half v : 2 ^ 31 <= v mod 2 ^ 32 -> to_int v = v mod 2 ^ 32 - 2 ^ 32.
Proof.
  intros Hhigh. unfold to_int.
  pose proof (Z.mod_pos_bound v (2 ^ 32) ltac:(lia)) as Hr.
  rewrite <- (Zplus_mod_idemp_l v).
  replace (v mod 2 ^ 32 + 2 ^ 31) with ((v mod 2 ^ 32 - 2 ^ 31) + 1 * 2 ^ 32) by lia.
  rewrite Z.mod_add, Z.mod_small by lia. lia.
Qed.

Lemma clamp_high_half v :
  2 ^ 31 <= v mod 2 ^ 32 -> clamp MAX_DATA_SIZE (to_int v) = v mod MAX_DATA_SIZE.
Proof.
  intros Hhigh. rewrite to_int_high_half by assumption.
  pose proof (Z.mod_pos_bound v (2 ^ 32) ltac:(lia)) as Hr.
  unfold clamp. destruct (Z.ltb_spec (v mod 2 ^ 32 - 2 ^ 32) MAX_DATA_SIZE);
    [|unfold MAX_DATA_SIZE in *; lia].
  unfold MAX_DATA_SIZE. change (4096 - 1) with (Z.ones 12).
  rewrite Z.land_ones by lia. change (2 ^ 12) with 4096.
  replace (v mod 2 ^ 32 - 2 ^ 32) with (v mod 2 ^ 32 + (- 1048576) * 4096) by lia.
  rewrite Z.mod_add by lia.
  apply Z.mod_mod_divide. exists 1048576. reflexivity.
Qed.

(** X13. [process_SSL_ex_data] converts the [size_t] pointee of the
    length pointer to [int], so only its low 32 bits count: when they
    are below 2^31 the published [data_len] is their minimum with
    [MAX_DATA_SIZE]; when bit 31 is set the value is negative as an
    [int] and the mask makes [data_len] the pointee modulo
    [MAX_DATA_SIZE], not [MAX_DATA_SIZE]. *)
Theorem read_ex_length_low_bits (k : kernel) (ctx : pt_regs) (id : Z)
    (ty : ssl_data_event_type) (_buf : buffer) (s : bpf_state) :
  to_int (PT_REGS_RC ctx) <> 0 ->
  let v := load_size_t (user_mem k) (len _buf) in
  exists e,
    tls_events (process_SSL_ex_data k ctx id ty _buf s) = tls_events s ++ [e] /\
    (v mod 2 ^ 32 < 2 ^ 31 -> data_len e = Z.min (v mod 2 ^ 32) MAX_DATA_SIZE) /\
    (2 ^ 31 <= v mod 2 ^ 32 -> data_len e = v mod MAX_DATA_SIZE).
Proof.
  intros Hnz v. eexists. split; [now apply process_SSL_ex_data_events|].
  cbn [data_len materialized]. fold v. split.
  - intros Hlow. rewrite to_int_low_half by assumption.
    apply clamp_MAX_min. apply Z.mod_pos_bound. lia.
  - apply clamp_high_half.
Qed.

Lemma read_ex_length_low_bits_witness :
  to_int (PT_REGS_RC (Scenario.at_return 1)) <> 0 /\
  2 ^ 31 <= load_size_t Scenario.mem Scenario.huge_ptr mod 2 ^ 32 /\
  exists e,
    tls_events
      (process_SSL_ex_data Scenario.on_A (Scenario.at_return 1) Scenario.thread_A kSSLRead
         (mk_buffer Scenario.buf_A Scenario.huge_ptr) init_state) =
    tls_events init_state ++ [e] /\
    data_len e = 4095.
Proof.
  assert (H1 : to_int (PT_REGS_RC (Scenario.at_return 1)) <> 0)
    by (vm_compute; discriminate).
  assert (H2 : 2 ^ 31 <= load_size_t Scenario.mem Scenario.huge_ptr mod 2 ^ 32)
    by (vm_compute; discriminate).
  split; [exact H1|]. split; [exact H2|].
  destruct (read_ex_length_low_bits Scenario.on_A (Scenario.at_return 1)
              Scenario.thread_A kSSLRead (mk_buffer Scenario.buf_A Scenario.huge_ptr)
              init_state H1) as (e & He & _ & Hhigh).
  exists e. split; [exact He|]. rewrite (Hhigh H2). vm_compute. reflexivity.
Defined.

(** ** Invariants along traces *)

Lemma handler_wf TRACE_PID p k ctx s :
  wf_state s -> wf_state (handler TRACE_PID p k ctx s).
Proof.
  intros Hwf.
  destruct (Z.eq_dec (pid_of k) TRACE_PID) as [Hpid|Hother];
    [|now rewrite handler_filtered].
  destruct p; cbn [handler].
  - rewrite probe_entry_SSL_write_target by assumption. exact Hwf.
  - rewrite probe_ret_SSL_write_target by assumption. cbv zeta.
    destruct (active_ssl_write_args_map s !! _) as [buf|]; [|exact Hwf].
    intros cpu. cbn [data_buffer_heap set_write_args_map].
    now apply process_SSL_data_wf.
  - rewrite probe_entry_SSL_read_target by assumption. exact Hwf.
  - rewrite probe_ret_SSL_read_target by assumption. cbv zeta.
    destruct (active_ssl_read_args_map s !! _) as [buf|]; [|exact Hwf].
    intros cpu. cbn [data_buffer_heap set_read_args_map].
    now apply process_SSL_data_wf.
  - rewrite probe_entry_SSL_read_ex_target_state by assumption. exact Hwf.
  - rewrite probe_ret_SSL_read_ex_target by assumption. cbv zeta.
    destruct (active_ssl_readex_buf_len_map s !! _) as [b|]; [|exact Hwf].
    intros cpu. cbn [data_buffer_heap set_read_args_map].
    now apply process_SSL_ex_data_wf.
Qed.

(** X14. Along any sequence of probe firings the payload region of every
    processor's scratch record keeps its capacity of [MAX_DATA_SIZE]
    bytes: no copy ever runs past the region. *)
Theorem trace_keeps_payload_capacity (TRACE_PID : Z) (tr : list invocation) :
  forall s : bpf_state, wf_state s -> wf_state (run TRACE_PID tr s).
Proof.
  induction tr as [|i tr IH]; intros s Hwf; [exact Hwf|].
  change (run TRACE_PID (i :: tr) s) with (run TRACE_PID tr (step TRACE_PID s i)).
  apply IH. now apply handler_wf.
Qed.

Lemma trace_keeps_payload_capacity_witness :
  wf_state init_state /\
  wf_state
    (run Scenario.target
       [mk_invocation Entry_SSL_write Scenario.on_A (Scenario.at_entry Scenario.buf_A 0);
        mk_invocation Ret_SSL_write Scenario.on_A (Scenario.at_return 5000)]
       init_state).
Proof.
  split; [exact init_state_wf|].
  exact (trace_keeps_payload_capacity Scenario.target _ init_state init_state_wf).
Defined.

Lemma hash_update_is_Some {V : Type} (m : gmap Z V) key val key' :
  is_Some (hash_update m key val !! key') -> key' = key \/ is_Some (m !! key').
Proof.
  destruct (Z.eq_dec key' key) as [->|Hne]; [now left|].
  rewrite hash_update_lookup_ne by assumption. now right.
Qed.

Lemma delete_is_Some {V : Type} (m : gmap Z V) key key' :
  is_Some (delete key m !! key') -> is_Some (m !! key').
Proof.
  destruct (Z.eq_dec key' key) as [->|Hne].
  - rewrite lookup_delete_eq. intros [? [=]].
  - now rewrite lookup_delete_ne.
Qed.

Lemma handler_keys TRACE_PID p k ctx s :
  keys_of_process TRACE_PID s -> keys_of_process TRACE_PID (handler TRACE_PID p k ctx s).
Proof.
  intros (HR & HW & HX).
  destruct (Z.eq_dec (pid_of k) TRACE_PID) as [Hpid|Hother];
    [|rewrite handler_filtered by assumption; repeat split; assumption].
  unfold keys_of_process.
  destruct (handler_target_maps TRACE_PID p k ctx s Hpid) as (-> & -> & ->).
  destruct p; repeat split; try assumption; intros key Hkey;
    try (apply hash_update_is_Some in Hkey as [->|Hkey]; [exact Hpid|auto]);
    try (apply delete_is_Some in Hkey; auto).
Qed.

(** X15. Along any sequence of probe firings, threads of other processes
    never get a pending record: if every key in the three correlation
    maps belongs to the target process (as when the maps are empty),
    this is still so afterwards. *)
Theorem trace_keeps_keys_of_target (TRACE_PID : Z) (tr : list invocation) :
  forall s : bpf_state,
  keys_of_process TRACE_PID s -> keys_of_process TRACE_PID (run TRACE_PID tr s).
Proof.
  induction tr as [|i tr IH]; intros s Hkeys; [exact Hkeys|].
  change (run TRACE_PID (i :: tr) s) with (run TRACE_PID tr (step TRACE_PID s i)).
  apply IH. now apply handler_keys.
Qed.

Lemma init_state_keys p : keys_of_process p init_state.
Proof.
  repeat split; intros key [v Hv]; cbn in Hv; now rewrite lookup_empty in Hv.
Qed.

Lemma trace_keeps_keys_of_target_witness :
  keys_of_process Scenario.target init_state /\
  keys_of_process Scenario.target
    (run Scenario.target
       [mk_invocation Entry_SSL_write Scenario.on_stranger
          (Scenario.at_entry Scenario.buf_B 0);
        mk_invocation Entry_SSL_read Scenario.on_A (Scenario.at_entry Scenario.buf_A 0)]
       init_state).
Proof.
  split; [exact (init_state_keys Scenario.target)|].
  exact (trace_keeps_keys_of_target Scenario.target _ init_state
           (init_state_keys Scenario.target)).
Defined.

(** X16. Firings by threads of other processes can be erased from any
    sequence of probe firings without changing the final state. *)
Theorem trace_ignores_other_processes (TRACE_PID : Z) (tr : list invocation)
    (s : bpf_state) :
  run TRACE_PID tr s = run TRACE_PID (List.filter (targets TRACE_PID) tr) s.
Proof. apply run_filter_targets. Qed.

(** ** A full table *)

Lemma call_dropped_when_full TRACE_PID c s :
  let id := bpf_get_current_pid_tgid (call_entry_kernel c) in
  bpf_get_current_pid_tgid (call_ret_kernel c) = id ->
  match call_shape c with
  | Write =>
      active_ssl_write_args_map s !! id = None /\
      hash_max_entries <= Z.of_nat (size (active_ssl_write_args_map s))
  | Read =>
      active_ssl_read_args_map s !! id = None /\
      hash_max_entries <= Z.of_nat (size (active_ssl_read_args_map s))
  | ReadEx =>
      active_ssl_readex_buf_len_map s !! id = None /\
      hash_max_entries <= Z.of_nat (size (active_ssl_readex_buf_len_map s))
  end ->
  tls_events (run TRACE_PID (call_trace c) s) = tls_events s.
Proof.
  destruct c as [sh kE ctxE kR ctxR].
  cbn [call_entry_kernel call_ret_kernel call_shape]. cbv zeta.
  intros HidR Hfull.
  unfold call_trace, run. cbn [fold_left]. unfold step.
  cbn [inv_probe inv_kernel inv_regs
    call_shape call_entry_kernel call_entry_regs call_ret_kernel call_ret_regs].
  destruct (handler_entry_keeps_events TRACE_PID sh kE ctxE s) as [Hev _].
  destruct (Z.eq_dec (pid_of kR) TRACE_PID) as [HpidR|Hother];
    [|now rewrite handler_filtered].
  assert (HpidE : pid_of kE = TRACE_PID) by (unfold pid_of in *; now rewrite <- HidR).
  rewrite handler_target_events, Hev by assumption.
  destruct (handler_target_maps TRACE_PID (entry_probe sh) kE ctxE s HpidE)
    as (HR & HW & HX).
  destruct sh; cbn [ret_probe published_by entry_probe] in *;
    destruct Hfull as [Hnone Hsize]; rewrite HidR.
  - rewrite HW, hash_update_lookup_full, Hnone by assumption. apply app_nil_r.
  - rewrite HR, hash_update_lookup_full, Hnone by assumption. apply app_nil_r.
  - rewrite HX, hash_update_lookup_full, Hnone by assumption. apply app_nil_r.
Qed.

(** X17. When the table of a shape is full and holds no record for the
    calling thread, the entry's update is refused without notice and
    the call publishes nothing, whatever it returns. *)
Theorem full_table_drops_call (TRACE_PID : Z) (c : call) (s : bpf_state) :
  let id := bpf_get_current_pid_tgid (call_entry_kernel c) in
  bpf_get_current_pid_tgid (call_ret_kernel c) = id ->
  match call_shape c with
  | Write =>
      active_ssl_write_args_map s !! id = None /\
      hash_max_entries <= Z.of_nat (size (active_ssl_write_args_map s))
  | Read =>
      active_ssl_read_args_map s !! id = None /\
      hash_max_entries <= Z.of_nat (size (active_ssl_read_args_map s))
  | ReadEx =>
      active_ssl_readex_buf_len_map s !! id = None /\
      hash_max_entries <= Z.of_nat (size (active_ssl_readex_buf_len_map s))
  end ->
  tls_events (run TRACE_PID (call_trace c) s) = tls_events s.
Proof. apply call_dropped_when_full. Qed.

Lemma full_table_drops_call_witness :
  let c := mk_call Write Scenario.on_A (Scenario.at_entry Scenario.buf_A 0)
             Scenario.on_A (Scenario.at_return 16) in
  active_ssl_write_args_map Scenario.full_state !! Scenario.thread_A = None /\
  hash_max_entries <= Z.of_nat (size (active_ssl_write_args_map Scenario.full_state)) /\
  tls_events (run Scenario.target (call_trace c) Scenario.full_state) = [].
Proof.
  intros c.
  assert (Hnone : active_ssl_write_args_map Scenario.full_state
                    !! Scenario.thread_A = None)
    by (vm_compute; reflexivity).
  assert (Hsize : hash_max_entries <=
                  Z.of_nat (size (active_ssl_write_args_map Scenario.full_state)))
    by (vm_compute; discriminate).
  split; [exact Hnone|]. split; [exact Hsize|].
  exact (full_table_drops_call Scenario.target c Scenario.full_state eq_refl
           (conj Hnone Hsize)).
Defined.
